(** * tsuru-autoscale: the cooldown decision and the autoscale wizard

    A shallow embedding of [alarm/auto_scale.go] (package [alarm]) and of
    the wizard (package [wizard]) together with the properties their
    design document states about them. *)

From Stdlib Require Import ZArith Lia Bool List.
From Stdlib Require Import Ascii String DecimalString.
From stdpp Require Import base option strings gmap fin_maps sorting.

Local Open Scope string_scope.
Local Open Scope Z_scope.

(** ** Go values shared by both packages *)

(** Go's [error] values that the code tells apart: [mgo.ErrNotFound] is
    compared by identity, every other error is carried by its message.
    A nil error is [None] in [option error]. *)
Inductive error : Type :=
  | ErrNotFound
  | Err (msg : string).

(** [err == nil] and [err == mgo.ErrNotFound]. *)
Definition is_nil (e : option error) : bool :=
  match e with
  | None => true
  | Some _ => false
  end.

Definition is_ErrNotFound (e : option error) : bool :=
  match e with
  | Some ErrNotFound => true
  | _ => false
  end.

(** [time.Duration] is an [int64] count of nanoseconds. *)
Definition minDuration : Z := - 2 ^ 63.
Definition maxDuration : Z := 2 ^ 63 - 1.
Definition Second : Z := 1000000000.

(** Two's-complement wrap-around of [int64] arithmetic. *)
Definition wrap64 (z : Z) : Z := (z + 2 ^ 63) mod 2 ^ 64 - 2 ^ 63.

(** [time.Time] without a monotonic reading (what [time.Now().UTC()] and a
    decoded document hold): an instant, counted in nanoseconds from
    January 1, year 1, 00:00:00 UTC, which is the zero [Time]. *)
Definition Time : Type := Z.

Module time.

Definition IsZero (t : Time) : bool := t =? 0.

(** [t.Sub(u)]: the duration t-u; when it does not fit a [Duration] the
    maximum (or minimum) duration is returned. *)
Definition Sub (t u : Time) : Z :=
  if maxDuration <? t - u then maxDuration
  else if t - u <? minDuration then minDuration
  else t - u.

End time.

(** ** Package alarm: [auto_scale.go] *)

Module alarm.

(** [action.Action]: only its wait period is read here. *)
Record Action : Type := mkAction {
  ActionName : string;
  ActionWait : Z
}.

(** Config represents the configuration for the auto scale. *)
Record Config : Type := mkConfig {
  Name : string;
  Increase : Action;
  Decrease : Action;
  MinUnits : Z;
  MaxUnits : Z;
  Enabled : bool
}.

(** An auto scale event as [shouldWait] reads it. *)
Record Event : Type := mkEvent {
  EventType : string;
  StartTime : Time;
  EndTime : Time;
  Successful : bool;
  Error : string
}.

(** What a tick can touch: the event collection and the remediation
    actions that were invoked. *)
Record Store : Type := mkStore {
  Events : list Event;
  Invoked : list string
}.

(** [scaleIfNeeded]: the whole decision body is commented out in the
    source; what runs is the nil check and [return nil]. A nil pointer is
    [None]. *)
Definition scaleIfNeeded (config : option Config) (st : Store)
  : option error * Store :=
  match config with
  | None => (Some (Err "AutoScale is not configured."), st)
  | Some _ => (None, st)
  end.

(** [runAutoScaleOnce] ranges over [configs := []Config{}]; errors are
    logged only. *)
Definition runAutoScaleOnce (st : Store) : Store :=
  fold_left (fun s config => snd (scaleIfNeeded (Some config) s))
            (@nil Config) st.

Section ShouldWait.

(** [time.Now().UTC()] and the event lookup [lastScaleEvent], which
    lives in another file of the package: it yields the most recent
    event of the configuration and an error, [mgo.ErrNotFound] when
    there is none. *)
Variable now : Time.
Variable lastScaleEvent : Config -> Event * option error.

Definition shouldWait (config : Config) (waitPeriod : Z)
  : bool * option error :=
  let '(lastEvent, err) := lastScaleEvent config in
  if negb (is_nil err) && negb (is_ErrNotFound err) then
    (false, err)
  else if negb (is_ErrNotFound err) && time.IsZero (EndTime lastEvent) then
    (true, None)
  else
    let diff := time.Sub now (EndTime lastEvent) in
    if waitPeriod <? diff then (false, None) else (true, None).

End ShouldWait.

Definition AutoScaleEnable (config : Config) : Config * option error :=
  (mkConfig (Name config) (Increase config) (Decrease config)
            (MinUnits config) (MaxUnits config) true, None).

Definition AutoScaleDisable (config : Config) : Config * option error :=
  (mkConfig (Name config) (Increase config) (Decrease config)
            (MinUnits config) (MaxUnits config) false, None).

End alarm.

(** ** Go's [strings], [strconv] and [fmt] as the wizard uses them *)

Module strings.

Fixpoint Join (elems : list string) (sep : string) : string :=
  match elems with
  | nil => ""
  | e :: nil => e
  | e :: rest => e ++ sep ++ Join rest sep
  end.

Fixpoint HasPrefix (s prefix : string) : bool :=
  match prefix, s with
  | EmptyString, _ => true
  | String a prefix', String b s' => Ascii.eqb a b && HasPrefix s' prefix'
  | String _ _, EmptyString => false
  end.

Fixpoint Contains (s substr : string) : bool :=
  HasPrefix s substr ||
  match s with
  | EmptyString => false
  | String _ s' => Contains s' substr
  end.

Fixpoint drop (n : nat) (s : string) : string :=
  match n, s with
  | S n', String _ s' => drop n' s'
  | _, _ => s
  end.

(** A [Replacer] built by [NewReplacer(old1, new1, old2, new2, ...)] is
    its list of pairs. *)
Definition Replacer : Type := list (string * string).

(** The replacement that applies at the head of [s]: comparisons are
    done in argument order. *)
Fixpoint lookup (r : Replacer) (s : string) : option (string * string) :=
  match r with
  | nil => None
  | (old, new) :: r' =>
      if HasPrefix s old then Some (old, new) else lookup r' s
  end.

(** The scan of the generic replacer over what is left of the input, for
    old strings that are not empty (the wizard's all are): replacements
    are made in the order they appear, without overlapping matches. The
    fuel bounds the number of loop iterations. *)
Fixpoint replaceLoop (fuel : nat) (r : Replacer) (s : string) : string :=
  match fuel with
  | O => ""
  | S fuel' =>
      match s with
      | EmptyString => ""
      | String c s' =>
          match lookup r s with
          | Some (old, new) =>
              new ++ replaceLoop fuel' r (drop (String.length old) s)
          | None => String c (replaceLoop fuel' r s')
          end
      end
  end.

Definition Replace (r : Replacer) (s : string) : string :=
  replaceLoop (String.length s) r s.

End strings.

Module strconv.

(** [Itoa]: the decimal text of an integer, with a minus sign when it is
    negative. *)
Definition Itoa (i : Z) : string := NilZero.string_of_int (Z.to_int i).

End strconv.

Module fmt.

(** The verb [%q] on a string in which nothing needs escaping: the
    string between double quotes. ([%s] is the string itself, so
    [Sprintf("%s_%s", x, y)] is [x ++ "_" ++ y].) *)
Definition q (s : string) : string :=
  String (ascii_of_nat 34) (s ++ String (ascii_of_nat 34) "").

End fmt.

(** ** The records of packages [alarm], [datasource] and [wizard] *)

(** [alarm.Alarm], with the fields the wizard fills in. *)
Module Alarm.
Record t : Type := mk {
  Name : string;
  Expression : string;
  Enabled : bool;
  Wait : Z;
  Actions : list string;
  Instance : string;
  DataSources : list string;
  Envs : gmap string string
}.
End Alarm.

(** [datasource.DataSource]: the wizard reads its expression template. *)
Module DataSource.
Record t : Type := mk {
  Name : string;
  ExpressionTemplate : string
}.
End DataSource.

(** ScaleAction represents a auto scale action like scale up or scale
    down. *)
Module ScaleAction.
Record t : Type := mk {
  Aggregator : string;
  Metric : string;
  Operator : string;
  Value : string;
  Step : string;
  Wait : Z
}.
(** The zero value of the struct. *)
Definition zero : t := mk "" "" "" "" "" 0.
End ScaleAction.

(** AutoScale represents a auto scale configuration. *)
Module AutoScale.
Record t : Type := mk {
  Name : string;
  ScaleUp : ScaleAction.t;
  ScaleDown : ScaleAction.t;
  MinUnits : Z;
  Process : string
}.
Definition withMinUnits (a : t) (n : Z) : t :=
  mk (Name a) (ScaleUp a) (ScaleDown a) n (Process a).
End AutoScale.

(** [alarm.Event] as the wizard's queries read it: the alarm is captured
    by value in the event, under the key [alarm]. *)
Module Event.
Record t : Type := mk {
  Alarm : Alarm.t;
  Type_ : string;
  StartTime : Time;
  EndTime : Time;
  Successful : bool;
  Error : string
}.
End Event.

#[global] Instance ScaleAction_eq_dec : EqDecision ScaleAction.t.
Proof. solve_decision. Defined.

#[global] Instance AutoScale_eq_dec : EqDecision AutoScale.t.
Proof. solve_decision. Defined.

(** ** The document store behind [db.Conn()] *)

(** The collections the wizard reaches through a connection, and whether a
    connection can be had at all ([db.Conn()] returns this error). *)
Record Storage : Type := mkStorage {
  AlarmColl : gmap string Alarm.t;
  DataSourceColl : gmap string DataSource.t;
  WizardColl : list AutoScale.t;
  ConnErr : option error
}.

Definition setAlarms (st : Storage) (m : gmap string Alarm.t) : Storage :=
  mkStorage m (DataSourceColl st) (WizardColl st) (ConnErr st).

Definition setWizards (st : Storage) (l : list AutoScale.t) : Storage :=
  mkStorage (AlarmColl st) (DataSourceColl st) l (ConnErr st).

(** ** Package wizard *)

Module wizard.

Definition unitsExpression : string :=
  "!units.lock.Locked && units.units.map(function(unit){ if (unit.ProcessName === " ++ String (ascii_of_nat 34) "{process}" ++ String (ascii_of_nat 34) ") {return 1} else {return 0}}).reduce(function(c, p) { return c + p }) > {minUnits}".

Definition defaultExpression : string :=
  "{metric}.aggregations.range.buckets[0].date.buckets[{metric}.aggregations.range.buckets[0].date.buckets.length - 1].{aggregator}.value {operator} {value}".

Section Wizard.

(** The syntax check of the expression evaluator, which is outside the
    repository. *)
Variable validExpression : string -> bool.

(** Modelled from the spec: [alarm.NewAlarm], whose file is not among
    the sources. An alarm's name is globally unique and its expression
    must be valid for the evaluator; creation fails otherwise and
    stores nothing. *)
Definition NewAlarm (a : Alarm.t) (st : Storage) : option error * Storage :=
  match AlarmColl st !! Alarm.Name a with
  | Some _ => (Some (Err "alarm already exists"), st)
  | None =>
      if validExpression (Alarm.Expression a)
      then (None, setAlarms st (<[Alarm.Name a := a]> (AlarmColl st)))
      else (Some (Err "invalid expression"), st)
  end.

(** Modelled from the spec: [alarm.FindAlarmByName], whose file is not
    among the sources. A lookup by name that finds nothing is an
    error. *)
Definition FindAlarmByName (name : string) (st : Storage)
  : Alarm.t + error :=
  match AlarmColl st !! name with
  | Some al => inl al
  | None => inr ErrNotFound
  end.

(** Modelled from the spec: [alarm.RemoveAlarm], whose file is not
    among the sources. Removal is by name. *)
Definition RemoveAlarm (al : Alarm.t) (st : Storage)
  : option error * Storage :=
  match AlarmColl st !! Alarm.Name al with
  | Some _ => (None, setAlarms st (delete (Alarm.Name al) (AlarmColl st)))
  | None => (Some ErrNotFound, st)
  end.

(** Modelled from the spec: [datasource.Get], whose file is not among
    the sources: the template registered under a name, if any. A nil
    result is [None]. *)
Definition datasourceGet (d : string) (st : Storage)
  : option DataSource.t :=
  DataSourceColl st !! d.

(** The loop over [datasources] in [newScaleAction] that collects
    [expParts]. *)
Definition expPart (st : Storage) (d : string) : string :=
  match datasourceGet d st with
  | Some ds =>
      if (DataSource.ExpressionTemplate ds =? "")%string then
        if (d =? "units")%string then unitsExpression
        else defaultExpression
      else DataSource.ExpressionTemplate ds
  | None =>
      if (d =? "units")%string then unitsExpression
      else defaultExpression
  end.

(** The [alarm.Alarm] that [newScaleAction] builds, up to the call of
    [alarm.NewAlarm]. *)
Definition scaleAlarm (st : Storage) (scaleConfig : AutoScale.t)
           (kind : string) : Alarm.t :=
  let action := ScaleAction.zero in
  let datasources := @nil string in
  let '(action, datasources) :=
    if (kind =? "scale_up")%string
    then (AutoScale.ScaleUp scaleConfig,
          ScaleAction.Metric (AutoScale.ScaleUp scaleConfig) :: nil)
    else (action, datasources) in
  let '(action, datasources) :=
    if (kind =? "scale_down")%string
    then (AutoScale.ScaleDown scaleConfig,
          "units" :: ScaleAction.Metric (AutoScale.ScaleDown scaleConfig)
            :: nil)
    else (action, datasources) in
  let '(name, processName) :=
    if (AutoScale.Process scaleConfig =? "")%string
    then (kind ++ "_" ++ AutoScale.Name scaleConfig, "web")
    else (kind ++ "_" ++ AutoScale.Name scaleConfig ++ "_"
               ++ AutoScale.Process scaleConfig,
          AutoScale.Process scaleConfig) in
  let aggregator :=
    if (ScaleAction.Aggregator action =? "")%string then "max"
    else ScaleAction.Aggregator action in
  let expParts := map (expPart st) datasources in
  let expression := strings.Join expParts " && " in
  let replacer : strings.Replacer :=
    ("{aggregator}", aggregator)
    :: ("{operator}", ScaleAction.Operator action)
    :: ("{value}", ScaleAction.Value action)
    :: ("{minUnits}", strconv.Itoa (AutoScale.MinUnits scaleConfig))
    :: ("{metric}", ScaleAction.Metric action)
    :: nil in
  let envs : gmap string string :=
    <["step" := ScaleAction.Step action]>
      (<["process" := processName]>
         (<["aggregator" := aggregator]> ∅)) in
  Alarm.mk name
           (strings.Replace replacer expression)
           true
           (wrap64 (ScaleAction.Wait action * Second))
           (kind :: nil)
           (AutoScale.Name scaleConfig)
           datasources
           envs.

Definition newScaleAction (scaleConfig : AutoScale.t) (kind : string)
           (st : Storage) : option error * Storage :=
  NewAlarm (scaleAlarm st scaleConfig kind) st.

(** [a.MinUnits <= 0] sets [a.MinUnits = 1], through the pointer. *)
Definition clampMinUnits (a : AutoScale.t) : AutoScale.t :=
  if AutoScale.MinUnits a <=? 0 then AutoScale.withMinUnits a 1 else a.

(** New creates a new auto scale based on AutoScale configuration. The
    result carries the error, the configuration as the caller's
    pointer sees it afterwards, and the store. *)
Definition New (a : AutoScale.t) (st : Storage)
  : option error * AutoScale.t * Storage :=
  let a := clampMinUnits a in
  match newScaleAction a "scale_up" st with
  | (Some err, st) => (Some err, a, st)
  | (None, st) =>
      match newScaleAction a "scale_down" st with
      | (Some err, st) => (Some err, a, st)
      | (None, st) =>
          match ConnErr st with
          | Some _ => (None, a, st)
          | None => (None, a, setWizards st (WizardColl st ++ a :: nil))
          end
      end
  end.

(** FindBy finds auto scale by a query; the wizard only queries by
    name ([bson.M{"name": name}]). *)
Definition FindBy (name : string) (st : Storage)
  : list AutoScale.t + error :=
  match ConnErr st with
  | Some err => inr err
  | None =>
      inl (filter (fun w => AutoScale.Name w = name) (WizardColl st))
  end.

(** FindByName finds auto scale by name. *)
Definition FindByName (name : string) (st : Storage)
  : AutoScale.t + error :=
  match FindBy name st with
  | inr err => inr err
  | inl (w :: _) => inl w
  | inl nil => inr (Err ("wizard " ++ fmt.q name ++ " not found"))
  end.

(** [(a *AutoScale) alarms()]: the names of the two alarms of an auto
    scale. *)
Definition alarms (a : AutoScale.t) : list string :=
  if (AutoScale.Process a =? "")%string
  then ("scale_up_" ++ AutoScale.Name a)
         :: ("scale_down_" ++ AutoScale.Name a) :: nil
  else ("scale_up_" ++ AutoScale.Name a ++ "_" ++ AutoScale.Process a)
         :: ("scale_down_" ++ AutoScale.Name a ++ "_"
               ++ AutoScale.Process a) :: nil.

(** The loop of [removeAlarms] over the alarm names. *)
Fixpoint removeAlarmsLoop (names : list string) (st : Storage)
  : option error * Storage :=
  match names with
  | nil => (None, st)
  | a :: rest =>
      match FindAlarmByName a st with
      | inr err => (Some err, st)
      | inl al =>
          match RemoveAlarm al st with
          | (Some err, st) => (Some err, st)
          | (None, st) => removeAlarmsLoop rest st
          end
      end
  end.

Definition removeAlarms (autoScale : AutoScale.t) (st : Storage)
  : option error * Storage :=
  removeAlarmsLoop (alarms autoScale) st.

(** The loop of [Enabled] over the alarm names. *)
Fixpoint EnabledLoop (names : list string) (st : Storage) : bool :=
  match names with
  | nil => true
  | alarmName :: rest =>
      match FindAlarmByName alarmName st with
      | inr _ => false
      | inl al =>
          if negb (Alarm.Enabled al) then false else EnabledLoop rest st
      end
  end.

(** Enabled returns true if the AutoScale alarms are enabled. *)
Definition Enabled (a : AutoScale.t) (st : Storage) : bool :=
  EnabledLoop (alarms a) st.

(** [conn.Wizard().Update(bson.M{"name": name}, a)]: the first document
    with that name is replaced; [mgo.ErrNotFound] when there is
    none. *)
Fixpoint updateFirst (name : string) (a : AutoScale.t)
         (l : list AutoScale.t) : option (list AutoScale.t) :=
  match l with
  | nil => None
  | w :: rest =>
      if (AutoScale.Name w =? name)%string then Some (a :: rest)
      else option_map (cons w) (updateFirst name a rest)
  end.

(** Update updates an auto scale. *)
Definition Update (a : AutoScale.t) (st : Storage)
  : option error * AutoScale.t * Storage :=
  match FindByName (AutoScale.Name a) st with
  | inr err => (Some err, a, st)
  | inl old =>
      let a := clampMinUnits a in
      match removeAlarms old st with
      | (Some err, st) => (Some err, a, st)
      | (None, st) =>
          match newScaleAction a "scale_up" st with
          | (Some err, st) => (Some err, a, st)
          | (None, st) =>
              match newScaleAction a "scale_down" st with
              | (Some err, st) => (Some err, a, st)
              | (None, st) =>
                  match ConnErr st with
                  | Some _ => (None, a, st)
                  | None =>
                      match updateFirst (AutoScale.Name a) a
                                        (WizardColl st) with
                      | Some l => (None, a, setWizards st l)
                      | None => (Some ErrNotFound, a, st)
                      end
                  end
              end
          end
      end
  end.

(** [conn.Wizard().Remove(a)]: the first document equal to the selector
    (every field of the struct is in it) is removed; [mgo.ErrNotFound]
    when there is none. *)
Fixpoint removeFirst (a : AutoScale.t) (l : list AutoScale.t)
  : option (list AutoScale.t) :=
  match l with
  | nil => None
  | w :: rest =>
      if decide (w = a) then Some rest
      else option_map (cons w) (removeFirst a rest)
  end.

(** Remove removes an auto scale. *)
Definition Remove (a : AutoScale.t) (st : Storage)
  : option error * Storage :=
  match removeAlarms a st with
  | (Some err, st) => (Some err, st)
  | (None, st) =>
      match ConnErr st with
      | Some err => (Some err, st)
      | None =>
          match removeFirst a (WizardColl st) with
          | Some l => (None, setWizards st l)
          | None => (Some ErrNotFound, st)
          end
      end
  end.

(** The alarm with its [Enabled] field set. *)
Definition withEnabled (al : Alarm.t) (b : bool) : Alarm.t :=
  Alarm.mk (Alarm.Name al) (Alarm.Expression al) b (Alarm.Wait al)
           (Alarm.Actions al) (Alarm.Instance al) (Alarm.DataSources al)
           (Alarm.Envs al).

(** Modelled from the spec: [alarm.Enable] and [alarm.Disable], whose file
    is not among the sources. An alarm is mutated only by them: the flag
    is set on the alarm and the alarm stored under its name is replaced;
    an alarm that is not stored cannot be updated. *)
Definition alarmSetEnabled (b : bool) (al : Alarm.t) (st : Storage)
  : option error * Storage :=
  match AlarmColl st !! Alarm.Name al with
  | Some _ =>
      (None,
       setAlarms st (<[Alarm.Name al := withEnabled al b]> (AlarmColl st)))
  | None => (Some ErrNotFound, st)
  end.

Definition alarmEnable : Alarm.t -> Storage -> option error * Storage :=
  alarmSetEnabled true.

Definition alarmDisable : Alarm.t -> Storage -> option error * Storage :=
  alarmSetEnabled false.

(** The loop shared, up to the call made on each alarm, by [Enable] and
    [Disable]. *)
Fixpoint forAlarms (f : Alarm.t -> Storage -> option error * Storage)
         (names : list string) (st : Storage) : option error * Storage :=
  match names with
  | nil => (None, st)
  | alarmName :: rest =>
      match FindAlarmByName alarmName st with
      | inr err => (Some err, st)
      | inl al =>
          match f al st with
          | (Some err, st) => (Some err, st)
          | (None, st) => forAlarms f rest st
          end
      end
  end.

(** Enable enables the AutoScale alarms. *)
Definition Enable (a : AutoScale.t) (st : Storage)
  : option error * Storage :=
  forAlarms alarmEnable (alarms a) st.

(** Disable disables the AutoScale alarms. *)
Definition Disable (a : AutoScale.t) (st : Storage)
  : option error * Storage :=
  forAlarms alarmDisable (alarms a) st.

End Wizard.

(** The query of [Events]: the event's alarm has the auto scale's name as
    instance and one of its actions is scale_up or scale_down. *)
Definition eventMatches (a : AutoScale.t) (e : Event.t) : Prop :=
  Alarm.Instance (Event.Alarm e) = AutoScale.Name a /\
  Exists (fun act => act = "scale_up" \/ act = "scale_down")
         (Alarm.Actions (Event.Alarm e)).

#[global] Instance eventMatches_dec (a : AutoScale.t) (e : Event.t) :
  Decision (eventMatches a e).
Proof. unfold eventMatches. apply _. Defined.

(** The order of [Sort("-starttime")]: later start times first. *)
Definition newerFirst (e1 e2 : Event.t) : Prop :=
  Event.StartTime e2 <= Event.StartTime e1.

#[global] Instance newerFirst_dec (e1 e2 : Event.t) :
  Decision (newerFirst e1 e2).
Proof. unfold newerFirst. apply _. Defined.

#[global] Instance newerFirst_total : Total newerFirst.
Proof. intros e1 e2. unfold newerFirst. lia. Qed.

#[global] Instance newerFirst_transitive : Transitive newerFirst.
Proof. intros e1 e2 e3. unfold newerFirst. lia. Qed.

(** Events return a list of AutoScale events: those of the event
    collection [events] that match, newest first, 200 at most. *)
Definition Events (a : AutoScale.t) (st : Storage) (events : list Event.t)
  : list Event.t + error :=
  match ConnErr st with
  | Some err => inr err
  | None =>
      inl (take 200 (merge_sort newerFirst (filter (eventMatches a) events)))
  end.

End wizard.

(** ** Sample values used by the examples below *)

Module sample.

Definition rush : alarm.Config :=
  alarm.mkConfig "rush" (alarm.mkAction "increase" 0)
                 (alarm.mkAction "decrease" 0) 1 10 true.

(** An event that started and has not ended, and the same event closed
    one minute later. *)
Definition running : alarm.Event :=
  alarm.mkEvent "increase" 63000000000000000000 0 false "".

Definition closed : alarm.Event :=
  alarm.mkEvent "increase" 63000000000000000000 63000000060000000000
                true "".

(** The zero [Event], which a lookup that finds nothing leaves in
    place. *)
Definition noEvent : alarm.Event := alarm.mkEvent "" 0 0 false "".

Definition emptyStore : alarm.Store := alarm.mkStore nil nil.

(** An empty store that can be reached. *)
Definition emptyStorage : Storage := mkStorage ∅ ∅ nil None.

Definition up : ScaleAction.t := ScaleAction.mk "avg" "cpu" ">" "80" "1" 30.
Definition down : ScaleAction.t := ScaleAction.mk "" "cpu" "<" "20" "1" 60.

(** The auto scale of the design document's round trip, with no minimum
    number of units given. *)
Definition api : AutoScale.t := AutoScale.mk "api" up down 0 "".

(** An evaluator that accepts every expression, and one that rejects an
    expression in which a placeholder is left. *)
Definition anyExpression (e : string) : bool := true.
Definition resolvedExpression (e : string) : bool :=
  negb (strings.Contains e "{").

End sample.

(** ** The design document's words for the wizard's output *)

Module design.

(** The process an alarm acts on: the configured one, else "web". *)
Definition processName (a : AutoScale.t) : string :=
  if (AutoScale.Process a =? "")%string then "web" else AutoScale.Process a.

(** The naming suffix shared by the two alarms of an auto scale. *)
Definition suffix (a : AutoScale.t) : string :=
  if (AutoScale.Process a =? "")%string then AutoScale.Name a
  else AutoScale.Name a ++ "_" ++ AutoScale.Process a.

(** The aggregator of an action, "max" when unspecified. *)
Definition aggregator (action : ScaleAction.t) : string :=
  if (ScaleAction.Aggregator action =? "")%string then "max"
  else ScaleAction.Aggregator action.

(** The placeholders and what is substituted for each. *)
Definition substitution (a : AutoScale.t) (action : ScaleAction.t)
  : strings.Replacer :=
  ("{aggregator}", aggregator action)
  :: ("{operator}", ScaleAction.Operator action)
  :: ("{value}", ScaleAction.Value action)
  :: ("{minUnits}", strconv.Itoa (AutoScale.MinUnits a))
  :: ("{metric}", ScaleAction.Metric action)
  :: nil.

Definition placeholders : list string :=
  "{metric}" :: "{aggregator}" :: "{operator}" :: "{value}"
  :: "{minUnits}" :: nil.

End design.

(** ** More sample values *)

Module fixture.

(** A store that cannot be reached. *)
Definition offline : Storage :=
  mkStorage ∅ ∅ nil (Some (Err "no reachable servers")).

(** The auto scale of process "worker" of "api", and an auto scale without
    process whose name is "api_worker". *)
Definition worker : AutoScale.t :=
  AutoScale.mk "api" sample.up sample.down 2 "worker".

Definition apiWorker : AutoScale.t :=
  AutoScale.mk "api_worker" sample.up sample.down 2 "".

(** The auto scale "api" with one unit at least, and the store that New
    leaves for it. *)
Definition api1 : AutoScale.t := AutoScale.withMinUnits sample.api 1.

Definition created : Storage :=
  snd (wizard.New sample.anyExpression sample.api sample.emptyStorage).

(** A store in which only the scale-up alarm of "api" is left. *)
Definition halfRemoved : Storage :=
  setAlarms created (delete "scale_down_api" (AlarmColl created)).

(** A metric with a registered template that holds no placeholder. *)
Definition withTemplate : Storage :=
  mkStorage ∅ {[ "cpu" := DataSource.mk "cpu" "data.cpu > 80" ]} nil None.

(** Three events, two of them of the alarms of "api". *)
Definition eventOf (al : Alarm.t) (start : Time) : Event.t :=
  Event.mk al "scale_up" start (start + 1000000000) true "".

Definition events : list Event.t :=
  eventOf (wizard.scaleAlarm sample.emptyStorage api1 "scale_up")
          63000000000000000000
  :: eventOf (wizard.scaleAlarm sample.emptyStorage apiWorker "scale_up")
             63000000030000000000
  :: eventOf (wizard.scaleAlarm sample.emptyStorage api1 "scale_down")
             63000000060000000000
  :: nil.

(** 201 events of an alarm of "api", started at 0, 1, ..., 200. *)
Definition smallAlarm : Alarm.t :=
  Alarm.mk "scale_up_api" "" true 0 ("scale_up" :: nil) "api" nil ∅.

Definition startedAt (n : nat) : Event.t :=
  Event.mk smallAlarm "scale_up" (Z.of_nat n) 0 true "".

Definition manyEvents : list Event.t := map startedAt (seq 0 201).

(** A configured wait of 9223372037 seconds, one more than fits. *)
Definition longWait : AutoScale.t :=
  AutoScale.mk "api"
               (ScaleAction.mk "avg" "cpu" ">" "80" "1" 9223372037)
               sample.down 1 "".

End fixture.

(** ** The alarm collection as a collection of documents *)

(** The alarm collection holds documents that are found by their name
    field: the alarm found under a name has that name. *)
Definition keyedByName (st : Storage) : Prop :=
  forall (n : string) (al : Alarm.t),
    AlarmColl st !! n = Some al -> Alarm.Name al = n.

(** ** Predicates on texts used to reason about the replacer *)

(** No character of [s] is [c]. *)
Fixpoint lacks (c : ascii) (s : string) : bool :=
  match s with
  | EmptyString => true
  | String b s' => negb (Ascii.eqb c b) && lacks c s'
  end.

(** [w] and the replacement [v] clash when one is a prefix of the other. *)
Definition clash (w v : string) : bool :=
  strings.HasPrefix v w || strings.HasPrefix w v.

(** No non-empty suffix of [w] clashes with a replacement of [r]. *)
Fixpoint clashfree (r : strings.Replacer) (w : string) : Prop :=
  match w with
  | EmptyString => True
  | String a w' =>
      List.Forall (fun on => clash w (snd on) = false) r /\ clashfree r w'
  end.

(** The units clause of a scale-down expression once [minUnits] is
    substituted; the process placeholder is not among the replacer's. *)
Definition unitsClause (minUnits : string) : string :=
  "!units.lock.Locked && units.units.map(function(unit){ if (unit.ProcessName === "
  ++ String (ascii_of_nat 34) "{process}" ++ String (ascii_of_nat 34)
       ") {return 1} else {return 0}}).reduce(function(c, p) { return c + p }) > "
  ++ minUnits.

(** Every old string of the replacer is non-empty. *)
Definition keysNonEmpty (r : strings.Replacer) : Prop :=
  List.Forall (fun on : string * string => fst on <> "") r.

(** * Facts about the string functions *)

Section StringFacts.

Import strings.

Lemma HasPrefix_empty (s : string) : HasPrefix s "" = true.
Proof. destruct s; reflexivity. Qed.

Lemma HasPrefix_cons (a b : ascii) (s p : string) :
  HasPrefix (String b s) (String a p) = true <->
  a = b /\ HasPrefix s p = true.
Proof.
  simpl. rewrite andb_true_iff, Ascii.eqb_eq. reflexivity.
Qed.

(** A prefix of [v ++ x] is a prefix of [v], or [v] is a prefix of it. *)
Lemma HasPrefix_app (w v x : string) :
  HasPrefix (v ++ x) w = true ->
  HasPrefix v w = true \/ HasPrefix w v = true.
Proof.
  revert w. induction v as [|b v IH]; intros w H.
  - right. apply HasPrefix_empty.
  - destruct w as [|a w]; [left; reflexivity|].
    change (String b v ++ x)%string with (String b (v ++ x)) in H.
    apply HasPrefix_cons in H as [-> H].
    destruct (IH _ H) as [Hl|Hr]; [left|right];
      apply HasPrefix_cons; split; auto.
Qed.

Lemma lookup_Some (r : Replacer) (s old new : string) :
  lookup r s = Some (old, new) ->
  In (old, new) r /\ HasPrefix s old = true.
Proof.
  induction r as [|[o n] r IH]; simpl; [discriminate|].
  destruct (HasPrefix s o) eqn:E.
  - intros [= <- <-]. split; [left; reflexivity | assumption].
  - intros H. destruct (IH H). split; [right|]; assumption.
Qed.

Lemma lookup_None (r : Replacer) (s old new : string) :
  lookup r s = None -> In (old, new) r -> HasPrefix s old = false.
Proof.
  induction r as [|[o n] r IH]; simpl; [contradiction|].
  destruct (HasPrefix s o) eqn:E; [discriminate|].
  intros H [[= <- <-]|Hin]; [assumption | apply IH; assumption].
Qed.

(** One step of the scan, on a non-empty input. *)
Lemma replaceLoop_step (fuel : nat) (r : Replacer) (c : ascii) (s : string) :
  replaceLoop (S fuel) r (String c s) =
  match lookup r (String c s) with
  | Some (old, new) =>
      (new ++ replaceLoop fuel r (drop (String.length old) (String c s)))%string
  | None => String c (replaceLoop fuel r s)
  end.
Proof. reflexivity. Qed.

Lemma Contains_app_lacks (c : ascii) (k v x : string) :
  lacks c v = true ->
  Contains (v ++ x) (String c k) = Contains x (String c k).
Proof.
  induction v as [|b v IH]; intros H; [reflexivity|].
  simpl in H. apply andb_true_iff in H as [Hb Hv].
  change (String b v ++ x)%string with (String b (v ++ x)).
  cbn [Contains HasPrefix].
  apply negb_true_iff in Hb. rewrite Hb. simpl. apply IH, Hv.
Qed.

(** What the replacer writes begins like its input, as far as a text is
    concerned that clashes with no replacement. *)
Lemma HasPrefix_replaceLoop (r : Replacer) (fuel : nat) :
  forall (w s : string),
    clashfree r w ->
    HasPrefix (replaceLoop fuel r s) w = true -> HasPrefix s w = true.
Proof.
  induction fuel as [|fuel IH]; intros w s Hc H.
  - destruct w; [apply HasPrefix_empty | discriminate].
  - destruct w as [|a w]; [apply HasPrefix_empty|].
    destruct s as [|c s]; [discriminate|].
    rewrite replaceLoop_step in H.
    destruct (lookup r (String c s)) as [[old new]|] eqn:El.
    + exfalso. destruct Hc as [Hall _].
      apply lookup_Some in El as [Hin _].
      rewrite List.Forall_forall in Hall. specialize (Hall _ Hin). simpl in Hall.
      unfold clash in Hall. apply orb_false_iff in Hall as [H1 H2].
      apply HasPrefix_app in H as [H|H]; congruence.
    + apply HasPrefix_cons in H as [-> H].
      apply HasPrefix_cons. split; [reflexivity|].
      destruct Hc as [_ Hc]. eapply IH; eassumption.
Qed.

(** A placeholder of the replacer does not survive the replacement when
    no replacement contains its opening character and its remainder
    clashes with no replacement. *)
Lemma Contains_replaceLoop (r : Replacer) (c : ascii) (k new0 : string) :
  In (String c k, new0) r ->
  Forall (fun on => lacks c (snd on) = true) r ->
  clashfree r k ->
  forall (fuel : nat) (s : string),
    Contains (replaceLoop fuel r s) (String c k) = false.
Proof.
  intros Hkey Hlacks Hclear.
  induction fuel as [|fuel IH]; intros s; [reflexivity|].
  destruct s as [|b s]; [reflexivity|].
  rewrite replaceLoop_step.
  destruct (lookup r (String b s)) as [[old new]|] eqn:El.
  - apply lookup_Some in El as [Hin _].
    rewrite List.Forall_forall in Hlacks. specialize (Hlacks _ Hin).
    rewrite (Contains_app_lacks c k new _ Hlacks). apply IH.
  - cbn [Contains]. rewrite IH, orb_false_r.
    destruct (HasPrefix (String b (replaceLoop fuel r s)) (String c k))
      eqn:E; [|reflexivity].
    exfalso. apply HasPrefix_cons in E as [-> E].
    apply HasPrefix_replaceLoop in E; [|assumption].
    pose proof (lookup_None _ _ _ _ El Hkey) as Hn.
    assert (HasPrefix (String b s) (String b k) = true)
      by (apply HasPrefix_cons; auto).
    congruence.
Qed.

Lemma length_drop (n : nat) (s : string) :
  String.length (drop n s) = (String.length s - n)%nat.
Proof.
  revert s. induction n as [|n IH]; intros s; [simpl; lia|].
  destruct s as [|c s]; [reflexivity|]. simpl. apply IH.
Qed.

(** The scan ends within as many steps as the input has characters:
    more fuel does not change what it writes. *)
Lemma replaceLoop_fuel (r : Replacer) :
  keysNonEmpty r ->
  forall (fuel1 fuel2 : nat) (s : string),
    (String.length s <= fuel1)%nat -> (String.length s <= fuel2)%nat ->
    replaceLoop fuel1 r s = replaceLoop fuel2 r s.
Proof.
  intros Hk. induction fuel1 as [|fuel1 IH]; intros fuel2 s H1 H2.
  - destruct s; [|simpl in H1; lia]. destruct fuel2; reflexivity.
  - destruct s as [|c s]; [destruct fuel2; reflexivity|].
    destruct fuel2 as [|fuel2]; [simpl in H2; lia|].
    rewrite !replaceLoop_step.
    destruct (lookup r (String c s)) as [[old new]|] eqn:El.
    + f_equal. apply lookup_Some in El as [Hin _].
      unfold keysNonEmpty in Hk. rewrite List.Forall_forall in Hk.
      specialize (Hk _ Hin). simpl in Hk.
      assert (0 < String.length old)%nat
        by (destruct old; [congruence | simpl; lia]).
      apply IH; rewrite length_drop; simpl in *; lia.
    + f_equal. apply IH; simpl in *; lia.
Qed.

Lemma Replace_fuel (r : Replacer) (fuel : nat) (s : string) :
  keysNonEmpty r -> (String.length s <= fuel)%nat ->
  replaceLoop fuel r s = Replace r s.
Proof.
  intros Hk Hf. unfold Replace. apply replaceLoop_fuel; auto.
Qed.

End StringFacts.

(** * Properties of package alarm *)

Lemma Sub_exact (t u : Time) :
  minDuration <= t - u <= maxDuration -> time.Sub t u = t - u.
Proof.
  intros [Hlo Hhi]. unfold time.Sub.
  destruct (Z.ltb_spec maxDuration (t - u)); [lia|].
  destruct (Z.ltb_spec (t - u) minDuration); [lia|reflexivity].
Qed.

Lemma Sub_range (t u : Time) : minDuration <= time.Sub t u <= maxDuration.
Proof.
  unfold time.Sub, minDuration, maxDuration.
  destruct (Z.ltb_spec (2 ^ 63 - 1) (t - u)); [lia|].
  destruct (Z.ltb_spec (t - u) (- 2 ^ 63)); lia.
Qed.

(** Below the largest wait period, comparing the saturated difference and
    comparing the instants themselves agree. *)
Lemma Sub_gt_iff (t u : Time) (w : Z) :
  minDuration <= w < maxDuration -> (w < time.Sub t u <-> w < t - u).
Proof.
  intros Hw. unfold time.Sub, minDuration, maxDuration in *.
  destruct (Z.ltb_spec (2 ^ 63 - 1) (t - u)); [lia|].
  destruct (Z.ltb_spec (t - u) (- 2 ^ 63)); lia.
Qed.

(** C1. When the most recent event of a configuration is still in flight
    (the lookup succeeds and the event's EndTime is the zero time),
    shouldWait answers true with a nil error, whatever the current time
    and whatever the wait period. *)
Theorem shouldWait_in_flight
        (now : Time) (lastScaleEvent : alarm.Config -> alarm.Event * option error)
        (config : alarm.Config) (waitPeriod : Z) (lastEvent : alarm.Event) :
  lastScaleEvent config = (lastEvent, None) ->
  time.IsZero (alarm.EndTime lastEvent) = true ->
  alarm.shouldWait now lastScaleEvent config waitPeriod = (true, None).
Proof.
  intros Hlook Hzero. unfold alarm.shouldWait.
  rewrite Hlook. simpl. rewrite Hzero. reflexivity.
Qed.

Lemma shouldWait_in_flight_witness :
  alarm.shouldWait 63000000090000000000 (fun _ => (sample.running, None))
                   sample.rush 0 = (true, None).
Proof.
  apply (shouldWait_in_flight 63000000090000000000
           (fun _ => (sample.running, None)) sample.rush 0 sample.running);
    reflexivity.
Defined.

(** C2. When the most recent event is closed (the lookup succeeds and
    EndTime is not the zero time), shouldWait answers false exactly when
    [now.Sub(EndTime)] is strictly greater than the wait period, and never
    fails; at equality it answers true. [now.Sub(EndTime)] is the
    difference of the two instants as a Duration, which is that difference
    itself for every wait period (a Duration) below the largest
    Duration. *)
Theorem shouldWait_closed
        (now : Time) (lastScaleEvent : alarm.Config -> alarm.Event * option error)
        (config : alarm.Config) (waitPeriod : Z) (lastEvent : alarm.Event) :
  lastScaleEvent config = (lastEvent, None) ->
  time.IsZero (alarm.EndTime lastEvent) = false ->
  let diff := time.Sub now (alarm.EndTime lastEvent) in
  let r := alarm.shouldWait now lastScaleEvent config waitPeriod in
  (r = (false, None) <-> waitPeriod < diff) /\
  (r = (true, None) <-> diff <= waitPeriod) /\
  (diff = waitPeriod -> r = (true, None)) /\
  (minDuration <= waitPeriod < maxDuration ->
   (r = (false, None) <-> waitPeriod < now - alarm.EndTime lastEvent)).
Proof.
  intros Hlook Hzero diff r.
  assert (Hr : r = if waitPeriod <? diff then (false, None) else (true, None)).
  { subst r diff. unfold alarm.shouldWait.
    rewrite Hlook. simpl. rewrite Hzero. reflexivity. }
  rewrite Hr. clear Hr r.
  destruct (Z.ltb_spec waitPeriod diff) as [Hlt|Hge].
  - repeat split; intros; try lia; try discriminate; try reflexivity.
    + subst diff. apply Sub_gt_iff; assumption.
  - repeat split; intros; try lia; try discriminate; try reflexivity.
    + subst diff. exfalso.
      pose proof (proj2 (Sub_gt_iff now (alarm.EndTime lastEvent)
                                    waitPeriod H) H0). lia.
Qed.

Lemma shouldWait_closed_witness :
  alarm.shouldWait 63000000090000000000 (fun _ => (sample.closed, None))
                   sample.rush 30000000000 = (true, None).
Proof.
  apply (shouldWait_closed 63000000090000000000
           (fun _ => (sample.closed, None)) sample.rush 30000000000
           sample.closed eq_refl eq_refl).
  reflexivity.
Defined.

(** With no prior event the lookup leaves the zero Event in place, whose
    EndTime is the zero time; shouldWait then compares the time elapsed
    since the zero time with the wait period. *)
Lemma shouldWait_not_found
      (now : Time) (config : alarm.Config) (waitPeriod : Z) :
  alarm.shouldWait now (fun _ => (sample.noEvent, Some ErrNotFound))
                   config waitPeriod
  = (negb (waitPeriod <? time.Sub now 0), None).
Proof.
  unfold alarm.shouldWait. simpl.
  destruct (waitPeriod <? time.Sub now 0); reflexivity.
Qed.

Lemma shouldWait_not_found_eligible
      (now : Time) (config : alarm.Config) (waitPeriod : Z) :
  maxDuration <= now -> waitPeriod < maxDuration ->
  alarm.shouldWait now (fun _ => (sample.noEvent, Some ErrNotFound))
                   config waitPeriod = (false, None).
Proof.
  intros Hnow Hw. rewrite shouldWait_not_found.
  assert (Hs : waitPeriod < time.Sub now 0).
  { pose proof (Sub_range now 0). unfold time.Sub in *.
    replace (now - 0) with now in * by lia.
    destruct (Z.ltb_spec maxDuration now); [assumption|].
    destruct (Z.ltb_spec now minDuration);
      unfold minDuration, maxDuration in *; lia. }
  apply Z.ltb_lt in Hs. rewrite Hs. reflexivity.
Qed.

(** C6. With the largest wait period, shouldWait answers true (wait) for a
    configuration that has no prior event: no Duration is greater than the
    largest one, so the comparison that ends shouldWait fails, whatever the
    current time and whatever Event value the failed lookup returns. *)
Theorem shouldWait_not_found_max_wait
        (now : Time) (config : alarm.Config) (lastEvent : alarm.Event) :
  alarm.shouldWait now (fun _ => (lastEvent, Some ErrNotFound))
                   config maxDuration = (true, None).
Proof.
  unfold alarm.shouldWait. simpl.
  pose proof (Sub_range now (alarm.EndTime lastEvent)) as [_ Hhi].
  destruct (Z.ltb_spec maxDuration (time.Sub now (alarm.EndTime lastEvent)));
    [lia | reflexivity].
Qed.

(** shouldWait on a few event histories. *)
Example shouldWait_elapsed :
  alarm.shouldWait 63000000090000000000 (fun _ => (sample.closed, None))
                   sample.rush 10000000000 = (false, None).
Proof. reflexivity. Qed.

Example shouldWait_lookup_error :
  alarm.shouldWait 63000000090000000000
                   (fun _ => (sample.noEvent, Some (Err "no reachable servers")))
                   sample.rush 10000000000
  = (false, Some (Err "no reachable servers")).
Proof. reflexivity. Qed.

Example shouldWait_first_time :
  alarm.shouldWait 63000000090000000000
                   (fun _ => (sample.noEvent, Some ErrNotFound))
                   sample.rush 10000000000 = (false, None).
Proof. reflexivity. Qed.

(** C4. For every configuration, scaleIfNeeded returns nil and leaves the
    event collection and the invoked actions as they were: no Event is
    created or closed and nothing is dispatched; so does a whole tick. *)
Theorem scaleIfNeeded_creates_no_event
        (config : alarm.Config) (st : alarm.Store) :
  alarm.scaleIfNeeded (Some config) st = (None, st) /\
  alarm.Events (snd (alarm.scaleIfNeeded (Some config) st)) = alarm.Events st /\
  alarm.runAutoScaleOnce st = st.
Proof. repeat split. Qed.

(** * Facts about [strconv.Itoa] *)

Lemma lacks_brace_uint (d : Decimal.uint) :
  lacks "{" (NilEmpty.string_of_uint d) = true.
Proof. induction d; simpl; auto. Qed.

Lemma lacks_brace_Itoa (i : Z) : lacks "{" (strconv.Itoa i) = true.
Proof.
  unfold strconv.Itoa, NilZero.string_of_int, NilZero.string_of_uint.
  destruct (Z.to_int i) as [d|d]; destruct d; simpl;
    auto using lacks_brace_uint.
Qed.

(** The text of an integer begins with a digit or a minus sign, so it
    clashes with no text that begins otherwise. *)
Lemma clash_Itoa (a : ascii) (w : string) (i : Z) :
  lacks a "-0123456789" = true -> clash (String a w) (strconv.Itoa i) = false.
Proof.
  intros H. simpl in H.
  repeat (apply andb_true_iff in H as [? H]).
  repeat match goal with
         | E : negb _ = true |- _ => apply negb_true_iff in E
         end.
  unfold clash, strconv.Itoa, NilZero.string_of_int, NilZero.string_of_uint.
  destruct (Z.to_int i) as [d|d]; destruct d; cbn [NilEmpty.string_of_uint strings.HasPrefix];
    rewrite ?(Ascii.eqb_sym _ a); 
    repeat match goal with
           | E : Ascii.eqb a _ = false |- _ => rewrite E; clear E
           end; reflexivity.
Qed.

(** * Properties of package wizard *)

(** What [scaleAlarm] computes for the two kinds the wizard uses. *)
Lemma scaleAlarm_scale_up (st : Storage) (a : AutoScale.t) :
  wizard.scaleAlarm st a "scale_up" =
  Alarm.mk ("scale_up_" ++ design.suffix a)
           (strings.Replace
              (design.substitution a (AutoScale.ScaleUp a))
              (strings.Join
                 (map (wizard.expPart st)
                      (ScaleAction.Metric (AutoScale.ScaleUp a) :: nil))
                 " && "))
           true
           (wrap64 (ScaleAction.Wait (AutoScale.ScaleUp a) * Second))
           ("scale_up" :: nil)
           (AutoScale.Name a)
           (ScaleAction.Metric (AutoScale.ScaleUp a) :: nil)
           (<["step" := ScaleAction.Step (AutoScale.ScaleUp a)]>
              (<["process" := design.processName a]>
                 (<["aggregator" := design.aggregator (AutoScale.ScaleUp a)]>
                    ∅))).
Proof.
  unfold wizard.scaleAlarm, design.suffix, design.processName,
    design.substitution, design.aggregator.
  cbn [String.eqb Ascii.eqb Bool.eqb].
  destruct (AutoScale.Process a =? "")%string; reflexivity.
Qed.

Lemma scaleAlarm_scale_down (st : Storage) (a : AutoScale.t) :
  wizard.scaleAlarm st a "scale_down" =
  Alarm.mk ("scale_down_" ++ design.suffix a)
           (strings.Replace
              (design.substitution a (AutoScale.ScaleDown a))
              (strings.Join
                 (map (wizard.expPart st)
                      ("units" :: ScaleAction.Metric (AutoScale.ScaleDown a)
                               :: nil))
                 " && "))
           true
           (wrap64 (ScaleAction.Wait (AutoScale.ScaleDown a) * Second))
           ("scale_down" :: nil)
           (AutoScale.Name a)
           ("units" :: ScaleAction.Metric (AutoScale.ScaleDown a) :: nil)
           (<["step" := ScaleAction.Step (AutoScale.ScaleDown a)]>
              (<["process" := design.processName a]>
                 (<["aggregator" := design.aggregator (AutoScale.ScaleDown a)]>
                    ∅))).
Proof.
  unfold wizard.scaleAlarm, design.suffix, design.processName,
    design.substitution, design.aggregator.
  cbn [String.eqb Ascii.eqb Bool.eqb].
  destruct (AutoScale.Process a =? "")%string; reflexivity.
Qed.

(** Each placeholder of the design's round trip is replaced without a
    residue, whatever template the replacer is run on. *)
Lemma roundtrip_no_residue (minUnits : Z) (template p : string) :
  In p design.placeholders ->
  strings.Contains
    (strings.Replace
       (("{aggregator}", "avg") :: ("{operator}", ">") :: ("{value}", "80")
        :: ("{minUnits}", strconv.Itoa minUnits) :: ("{metric}", "cpu")
        :: nil)
       template) p = false.
Proof.
  intros Hp. unfold strings.Replace.
  assert (Hl : List.Forall (fun on : string * string => lacks "{" (snd on) = true)
                 (("{aggregator}", "avg") :: ("{operator}", ">")
                  :: ("{value}", "80")
                  :: ("{minUnits}", strconv.Itoa minUnits)
                  :: ("{metric}", "cpu") :: nil)).
  { repeat constructor. apply lacks_brace_Itoa. }
  simpl in Hp.
  destruct Hp as [<-|[<-|[<-|[<-|[<-|[]]]]]];
    (eapply Contains_replaceLoop;
     [ simpl; eauto 10
     | exact Hl
     | cbn [clashfree]; repeat split;
       repeat (constructor;
               [first [reflexivity | apply clash_Itoa; reflexivity]|]);
       constructor ]).
Qed.

(** C7. The scale-up alarm generated for name "api", no process, metric
    "cpu", operator ">", value "80" and aggregator "avg" is named
    "scale_up_api"; its expression is the metric's template with the five
    placeholders substituted by the given values, none of the five
    placeholder tokens is left in it, and with the built-in template it
    reads as displayed. *)
Theorem scale_up_api_roundtrip
        (st : Storage) (down : ScaleAction.t) (minUnits : Z)
        (step : string) (wait : Z) :
  let a := AutoScale.mk "api" (ScaleAction.mk "avg" "cpu" ">" "80" step wait)
                        down minUnits "" in
  let al := wizard.scaleAlarm st a "scale_up" in
  Alarm.Name al = "scale_up_api" /\
  Alarm.Expression al =
    strings.Replace
      (("{aggregator}", "avg") :: ("{operator}", ">") :: ("{value}", "80")
       :: ("{minUnits}", strconv.Itoa minUnits) :: ("{metric}", "cpu") :: nil)
      (wizard.expPart st "cpu") /\
  (forall p, In p design.placeholders ->
             strings.Contains (Alarm.Expression al) p = false) /\
  (wizard.datasourceGet "cpu" st = None ->
   Alarm.Expression al =
     "cpu.aggregations.range.buckets[0].date.buckets[cpu.aggregations.range.buckets[0].date.buckets.length - 1].avg.value > 80").
Proof.
  intros a al.
  assert (Hexp : Alarm.Expression al =
    strings.Replace
      (("{aggregator}", "avg") :: ("{operator}", ">") :: ("{value}", "80")
       :: ("{minUnits}", strconv.Itoa minUnits) :: ("{metric}", "cpu") :: nil)
      (wizard.expPart st "cpu")).
  { subst al. rewrite scaleAlarm_scale_up. reflexivity. }
  split; [subst al; rewrite scaleAlarm_scale_up; reflexivity|].
  split; [exact Hexp|]. split.
  - intros p Hp. rewrite Hexp. apply roundtrip_no_residue, Hp.
  - intros Hnone. rewrite Hexp. unfold wizard.expPart. rewrite Hnone.
    vm_compute. reflexivity.
Qed.

Lemma scale_up_api_roundtrip_witness :
  Alarm.Expression (wizard.scaleAlarm sample.emptyStorage sample.api "scale_up")
  = "cpu.aggregations.range.buckets[0].date.buckets[cpu.aggregations.range.buckets[0].date.buckets.length - 1].avg.value > 80".
Proof.
  apply (scale_up_api_roundtrip sample.emptyStorage sample.down 0 "1" 30).
  reflexivity.
Defined.

Lemma substitution_keysNonEmpty (a : AutoScale.t) (action : ScaleAction.t) :
  keysNonEmpty (design.substitution a action).
Proof. repeat constructor; discriminate. Qed.

(** The built-in units template followed by another template: the units
    clause gets [minUnits] and the rest is substituted on its own. *)
Lemma Replace_units_and (a : AutoScale.t) (action : ScaleAction.t)
      (template : string) :
  strings.Replace (design.substitution a action)
                  (wizard.unitsExpression ++ " && " ++ template)
  = (unitsClause (strconv.Itoa (AutoScale.MinUnits a)) ++ " && "
     ++ strings.Replace (design.substitution a action) template)%string.
Proof.
  rewrite <- (Replace_fuel (design.substitution a action)
                           (9 + String.length template) template
                           (substitution_keysNonEmpty a action));
    [|lia].
  unfold strings.Replace, design.substitution.
  generalize (design.aggregator action) (ScaleAction.Operator action)
             (ScaleAction.Value action) (strconv.Itoa (AutoScale.MinUnits a))
             (ScaleAction.Metric action).
  intros agg op val mu metric.
  vm_compute. reflexivity.
Qed.

Lemma wrap64_small (z : Z) :
  minDuration <= z <= maxDuration -> wrap64 z = z.
Proof.
  unfold wrap64, minDuration, maxDuration. intros H.
  rewrite Z.mod_small; lia.
Qed.

(** C5, as it fails: the wizard does not store the configured wait
    unchanged; a wait of 30 becomes 30000000000. *)
Lemma scaleAlarm_wait_not_unchanged :
  Alarm.Wait (wizard.scaleAlarm sample.emptyStorage sample.api "scale_up")
  <> ScaleAction.Wait (AutoScale.ScaleUp sample.api).
Proof. vm_compute. discriminate. Qed.

(** C5, amended. For both generated alarms, Envs is exactly the map with
    step, process (the process name, "web" when none is configured) and
    aggregator ("max" when none is configured), and Wait is the configured
    wait multiplied by [time.Second] in [int64] arithmetic, which is that
    product itself whenever it fits a Duration. *)
Theorem scaleAlarm_envs_and_wait (st : Storage) (a : AutoScale.t) :
  let up := AutoScale.ScaleUp a in
  let down := AutoScale.ScaleDown a in
  Alarm.Envs (wizard.scaleAlarm st a "scale_up")
  = {[ "step" := ScaleAction.Step up;
       "process" := design.processName a;
       "aggregator" := design.aggregator up ]} /\
  Alarm.Envs (wizard.scaleAlarm st a "scale_down")
  = {[ "step" := ScaleAction.Step down;
       "process" := design.processName a;
       "aggregator" := design.aggregator down ]} /\
  Alarm.Wait (wizard.scaleAlarm st a "scale_up")
  = wrap64 (ScaleAction.Wait up * 1000000000) /\
  Alarm.Wait (wizard.scaleAlarm st a "scale_down")
  = wrap64 (ScaleAction.Wait down * 1000000000) /\
  (minDuration <= ScaleAction.Wait up * 1000000000 <= maxDuration ->
   Alarm.Wait (wizard.scaleAlarm st a "scale_up")
   = ScaleAction.Wait up * 1000000000) /\
  (minDuration <= ScaleAction.Wait down * 1000000000 <= maxDuration ->
   Alarm.Wait (wizard.scaleAlarm st a "scale_down")
   = ScaleAction.Wait down * 1000000000).
Proof.
  intros up down. rewrite scaleAlarm_scale_up, scaleAlarm_scale_down.
  cbn [Alarm.Envs Alarm.Wait]. fold up down.
  repeat split; try (rewrite insert_empty; reflexivity);
    intros H; apply wrap64_small, H.
Qed.

Lemma scaleAlarm_envs_and_wait_witness :
  Alarm.Wait (wizard.scaleAlarm sample.emptyStorage sample.api "scale_up")
  = 30 * 1000000000.
Proof.
  apply (scaleAlarm_envs_and_wait sample.emptyStorage sample.api).
  vm_compute. split; discriminate.
Defined.

Lemma expPart_builtin (st : Storage) (d : string) :
  wizard.datasourceGet d st = None ->
  wizard.expPart st d =
  if (d =? "units")%string then wizard.unitsExpression
  else wizard.defaultExpression.
Proof. intros H. unfold wizard.expPart. rewrite H. reflexivity. Qed.

(** With the built-in units template, the scale-down expression is the
    units clause with [minUnits] substituted, followed by the metric's
    part. *)
Lemma scaleAlarm_scale_down_builtin_units (st : Storage) (a : AutoScale.t) :
  wizard.datasourceGet "units" st = None ->
  Alarm.Expression (wizard.scaleAlarm st a "scale_down")
  = (unitsClause (strconv.Itoa (AutoScale.MinUnits a)) ++ " && "
     ++ strings.Replace
          (design.substitution a (AutoScale.ScaleDown a))
          (wizard.expPart st (ScaleAction.Metric (AutoScale.ScaleDown a))))%string.
Proof.
  intros H. rewrite scaleAlarm_scale_down.
  cbn [Alarm.Expression map strings.Join].
  rewrite (expPart_builtin st "units" H).
  cbn [String.eqb Ascii.eqb Bool.eqb]. apply Replace_units_and.
Qed.

(** C8. A generated scale-down alarm has the datasources "units" and the
    metric, in that order, and its expression is the units template joined
    by " && " with the metric's template, units first, with the
    placeholders substituted; when no template is registered under
    "units" that part is the built-in units clause, which compares the
    count of units of the process with minUnits. A generated scale-up
    alarm has the metric as its only datasource and its expression is the
    metric's template alone, substituted: nothing is joined to it. *)
Theorem scaleAlarm_datasources_and_expression (st : Storage) (a : AutoScale.t) :
  let up := AutoScale.ScaleUp a in
  let down := AutoScale.ScaleDown a in
  let alUp := wizard.scaleAlarm st a "scale_up" in
  let alDown := wizard.scaleAlarm st a "scale_down" in
  Alarm.DataSources alDown = "units" :: ScaleAction.Metric down :: nil /\
  Alarm.Expression alDown
  = strings.Replace (design.substitution a down)
                    (wizard.expPart st "units" ++ " && "
                     ++ wizard.expPart st (ScaleAction.Metric down)) /\
  (wizard.datasourceGet "units" st = None ->
   wizard.expPart st "units" = wizard.unitsExpression /\
   Alarm.Expression alDown
   = (unitsClause (strconv.Itoa (AutoScale.MinUnits a)) ++ " && "
      ++ strings.Replace (design.substitution a down)
                         (wizard.expPart st (ScaleAction.Metric down)))%string) /\
  Alarm.DataSources alUp = ScaleAction.Metric up :: nil /\
  Alarm.Expression alUp
  = strings.Replace (design.substitution a up)
                    (wizard.expPart st (ScaleAction.Metric up)) /\
  (ScaleAction.Metric up <> "units" ->
   wizard.datasourceGet (ScaleAction.Metric up) st = None ->
   Alarm.Expression alUp
   = strings.Replace (design.substitution a up) wizard.defaultExpression).
Proof.
  intros up down alUp alDown. subst alUp alDown.
  rewrite scaleAlarm_scale_up, scaleAlarm_scale_down.
  cbn [Alarm.DataSources Alarm.Expression map strings.Join]. fold up down.
  repeat split.
  - apply (expPart_builtin st "units"), H.
  - pose proof (scaleAlarm_scale_down_builtin_units st a H) as Hb.
    rewrite scaleAlarm_scale_down in Hb. exact Hb.
  - intros Hne Hnone. rewrite (expPart_builtin st _ Hnone).
    apply String.eqb_neq in Hne. rewrite Hne. reflexivity.
Qed.

Lemma scaleAlarm_datasources_and_expression_witness :
  Alarm.Expression (wizard.scaleAlarm sample.emptyStorage
                      (AutoScale.withMinUnits sample.api 1) "scale_down")
  = (unitsClause "1" ++ " && cpu.aggregations.range.buckets[0].date.buckets[cpu.aggregations.range.buckets[0].date.buckets.length - 1].max.value < 20")%string
  /\
  Alarm.Expression (wizard.scaleAlarm sample.emptyStorage sample.api "scale_up")
  = "cpu.aggregations.range.buckets[0].date.buckets[cpu.aggregations.range.buckets[0].date.buckets.length - 1].avg.value > 80".
Proof.
  pose proof (scaleAlarm_datasources_and_expression
                sample.emptyStorage (AutoScale.withMinUnits sample.api 1))
    as (_ & _ & Hdown & _).
  pose proof (scaleAlarm_datasources_and_expression
                sample.emptyStorage sample.api)
    as (_ & _ & _ & _ & _ & Hup).
  split.
  - destruct (Hdown eq_refl) as [_ ->]. vm_compute. reflexivity.
  - rewrite Hup; [vm_compute; reflexivity | discriminate | reflexivity].
Defined.

Lemma alarms_names (a : AutoScale.t) :
  wizard.alarms a
  = ("scale_up_" ++ design.suffix a)%string
      :: ("scale_down_" ++ design.suffix a)%string :: nil.
Proof.
  unfold wizard.alarms, design.suffix.
  destruct (AutoScale.Process a =? "")%string; reflexivity.
Qed.

(** C9. Enabled is computed from the two alarms found under the names of
    the naming convention, which are the names the wizard gives to the
    alarms it generates: it is true exactly when both alarms exist in the
    alarm collection and both have Enabled set. It reads nothing but the
    alarm collection, so nothing is stored for it with the auto scale. *)
Theorem Enabled_iff_both_alarms_enabled (a : AutoScale.t) (st : Storage) :
  let upName := ("scale_up_" ++ design.suffix a)%string in
  let downName := ("scale_down_" ++ design.suffix a)%string in
  wizard.alarms a = upName :: downName :: nil /\
  Alarm.Name (wizard.scaleAlarm st a "scale_up") = upName /\
  Alarm.Name (wizard.scaleAlarm st a "scale_down") = downName /\
  (wizard.Enabled a st = true <->
   exists up down : Alarm.t,
     AlarmColl st !! upName = Some up /\ Alarm.Enabled up = true /\
     AlarmColl st !! downName = Some down /\ Alarm.Enabled down = true) /\
  wizard.Enabled a st
  = wizard.Enabled a (mkStorage (AlarmColl st) ∅ nil None).
Proof.
  intros upName downName.
  split; [apply alarms_names|].
  split; [rewrite scaleAlarm_scale_up; reflexivity|].
  split; [rewrite scaleAlarm_scale_down; reflexivity|].
  unfold wizard.Enabled. rewrite alarms_names. fold upName downName.
  split; [|reflexivity].
  cbn [wizard.EnabledLoop]. unfold wizard.FindAlarmByName.
  split.
  - destruct (AlarmColl st !! upName) as [up|] eqn:Eu; [|discriminate].
    destruct (Alarm.Enabled up) eqn:Eeu; [|discriminate]. cbn [negb].
    destruct (AlarmColl st !! downName) as [down|] eqn:Ed; [|discriminate].
    destruct (Alarm.Enabled down) eqn:Eed; [|discriminate].
    intros _. exists up, down. auto.
  - intros (up & down & -> & -> & -> & ->). reflexivity.
Qed.

Lemma NewAlarm_failure (valid : string -> bool) (al : Alarm.t)
      (st st' : Storage) (err : error) :
  wizard.NewAlarm valid al st = (Some err, st') -> st' = st.
Proof.
  unfold wizard.NewAlarm.
  destruct (AlarmColl st !! Alarm.Name al); [congruence|].
  destruct (valid (Alarm.Expression al)); congruence.
Qed.

Lemma NewAlarm_success (valid : string -> bool) (al : Alarm.t)
      (st st' : Storage) :
  wizard.NewAlarm valid al st = (None, st') ->
  AlarmColl st !! Alarm.Name al = None /\
  st' = setAlarms st (<[Alarm.Name al := al]> (AlarmColl st)).
Proof.
  unfold wizard.NewAlarm.
  destruct (AlarmColl st !! Alarm.Name al); [congruence|].
  destruct (valid (Alarm.Expression al)); [|congruence].
  intros [= <-]. auto.
Qed.

(** C3, as it fails: with an evaluator that rejects the placeholder left
    in the units clause, the scale-up alarm of "api" is created, the
    creation of the scale-down alarm fails, and New returns that error with
    the scale-up alarm still in the alarm collection and no scale-down
    alarm beside it. *)
Lemma New_leaves_first_alarm_behind :
  let a := wizard.clampMinUnits sample.api in
  let st1 := snd (wizard.newScaleAction sample.resolvedExpression a "scale_up"
                                        sample.emptyStorage) in
  let '(err, _, st) :=
    wizard.New sample.resolvedExpression sample.api sample.emptyStorage in
  fst (wizard.newScaleAction sample.resolvedExpression a "scale_up"
                             sample.emptyStorage) = None /\
  fst (wizard.newScaleAction sample.resolvedExpression a "scale_down" st1)
  = Some (Err "invalid expression") /\
  err = Some (Err "invalid expression") /\
  AlarmColl st !! "scale_up_api"
  = Some (wizard.scaleAlarm sample.emptyStorage a "scale_up") /\
  AlarmColl st !! "scale_down_api" = None.
Proof. vm_compute. repeat split. Qed.

(** C3, amended. When the creation of the scale-down alarm fails after the
    scale-up alarm was created, New returns the error of the failed
    creation; the scale-up alarm stays in the alarm collection, which is
    as the first creation left it, and the auto scale is not stored. *)
Theorem New_second_creation_fails
        (valid : string -> bool) (a : AutoScale.t)
        (st st1 st2 : Storage) (err : error) :
  wizard.newScaleAction valid (wizard.clampMinUnits a) "scale_up" st
  = (None, st1) ->
  wizard.newScaleAction valid (wizard.clampMinUnits a) "scale_down" st1
  = (Some err, st2) ->
  wizard.New valid a st = (Some err, wizard.clampMinUnits a, st2) /\
  st2 = st1 /\
  AlarmColl st2 !! ("scale_up_" ++ design.suffix a)%string
  = Some (wizard.scaleAlarm st (wizard.clampMinUnits a) "scale_up") /\
  WizardColl st2 = WizardColl st.
Proof.
  intros Hup Hdown. unfold wizard.New. rewrite Hup, Hdown.
  split; [reflexivity|].
  unfold wizard.newScaleAction in *.
  apply NewAlarm_failure in Hdown. subst st2.
  apply NewAlarm_success in Hup as [_ ->].
  split; [reflexivity|]. split; [|reflexivity].
  cbn [AlarmColl setAlarms].
  rewrite scaleAlarm_scale_up. cbn [Alarm.Name].
  replace (design.suffix (wizard.clampMinUnits a)) with (design.suffix a).
  - apply lookup_insert_eq.
  - unfold wizard.clampMinUnits. destruct (AutoScale.MinUnits a <=? 0);
      reflexivity.
Qed.

Lemma New_second_creation_fails_witness :
  wizard.New sample.resolvedExpression sample.api sample.emptyStorage
  = (Some (Err "invalid expression"), wizard.clampMinUnits sample.api,
     snd (wizard.newScaleAction sample.resolvedExpression
            (wizard.clampMinUnits sample.api) "scale_up"
            sample.emptyStorage)).
Proof.
  eapply (New_second_creation_fails sample.resolvedExpression sample.api
            sample.emptyStorage _ _ (Err "invalid expression")).
  - vm_compute. reflexivity.
  - vm_compute. reflexivity.
Defined.

Lemma Enabled_iff_both_alarms_enabled_witness :
  wizard.Enabled sample.api
    (snd (wizard.New sample.anyExpression sample.api sample.emptyStorage))
  = true.
Proof.
  destruct (Enabled_iff_both_alarms_enabled sample.api
              (snd (wizard.New sample.anyExpression sample.api
                               sample.emptyStorage)))
    as (_ & _ & _ & Hiff & _).
  apply Hiff.
  exists (wizard.scaleAlarm sample.emptyStorage
            (wizard.clampMinUnits sample.api) "scale_up"),
         (wizard.scaleAlarm sample.emptyStorage
            (wizard.clampMinUnits sample.api) "scale_down").
  vm_compute. repeat split.
Defined.

(** What a call of [newScaleAction] leaves in the store. *)
Lemma newScaleAction_store (valid : string -> bool) (a : AutoScale.t)
      (kind : string) (st st' : Storage) (r : option error) :
  wizard.newScaleAction valid a kind st = (r, st') ->
  (forall n al, AlarmColl st' !! n = Some al ->
                AlarmColl st !! n = Some al \/
                al = wizard.scaleAlarm st a kind) /\
  WizardColl st' = WizardColl st /\ ConnErr st' = ConnErr st.
Proof.
  unfold wizard.newScaleAction. intros H. destruct r as [err|].
  - apply NewAlarm_failure in H. subst st'. auto.
  - apply NewAlarm_success in H as [_ ->]. cbn [AlarmColl WizardColl ConnErr setAlarms].
    repeat split. intros n al Hn.
    destruct (decide (Alarm.Name (wizard.scaleAlarm st a kind) = n)) as [<-|Hne].
    + rewrite lookup_insert_eq in Hn. right. congruence.
    + rewrite lookup_insert_ne in Hn by assumption. left. assumption.
Qed.

(** [removeAlarms] only takes alarms away. *)
Lemma removeAlarmsLoop_store (names : list string) :
  forall (st st' : Storage) (r : option error),
    wizard.removeAlarmsLoop names st = (r, st') ->
    (forall n al, AlarmColl st' !! n = Some al -> AlarmColl st !! n = Some al) /\
    WizardColl st' = WizardColl st /\ ConnErr st' = ConnErr st.
Proof.
  induction names as [|name names IH]; intros st st' r H; simpl in H.
  - injection H as <- <-. auto.
  - unfold wizard.FindAlarmByName in H.
    destruct (AlarmColl st !! name) as [al0|]; [|injection H as <- <-; auto].
    unfold wizard.RemoveAlarm in H.
    destruct (AlarmColl st !! Alarm.Name al0);
      [|injection H as <- <-; auto].
    apply IH in H as (Hal & Hw & Hc).
    cbn [AlarmColl WizardColl ConnErr setAlarms] in *.
    repeat split; try assumption.
    intros n al Hn. apply Hal in Hn.
    apply lookup_delete_Some in Hn as [_ Hn]. exact Hn.
Qed.


Lemma clampMinUnits_Name (a : AutoScale.t) :
  AutoScale.Name (wizard.clampMinUnits a) = AutoScale.Name a.
Proof.
  unfold wizard.clampMinUnits.
  destruct (AutoScale.MinUnits a <=? 0); reflexivity.
Qed.




(** Update on the store that New left: the alarms are generated again from
    the clamped configuration and the stored auto scale is replaced. *)
Example Update_after_New :
  let st := snd (wizard.New sample.anyExpression sample.api
                            sample.emptyStorage) in
  let a := AutoScale.withMinUnits sample.api (-3) in
  let '(err, a1, st') := wizard.Update sample.anyExpression a st in
  err = None /\ AutoScale.MinUnits a1 = 1 /\
  WizardColl st' = AutoScale.withMinUnits sample.api 1 :: nil /\
  wizard.Enabled a st' = true.
Proof. vm_compute. repeat split. Qed.

(** * Further properties of package alarm *)

Lemma Sub_monotone (t t' u : Time) :
  t <= t' -> time.Sub t u <= time.Sub t' u.
Proof.
  intros H. unfold time.Sub, minDuration, maxDuration.
  destruct (Z.ltb_spec (2 ^ 63 - 1) (t - u));
    destruct (Z.ltb_spec (2 ^ 63 - 1) (t' - u));
    destruct (Z.ltb_spec (t - u) (- 2 ^ 63));
    destruct (Z.ltb_spec (t' - u) (- 2 ^ 63)); lia.
Qed.

(** X1. An error of the event lookup other than not-found is returned as
    it is, with the answer false, whatever the event, the time and the
    wait period; in every other case shouldWait returns a nil error. *)
Theorem shouldWait_error
        (now : Time) (lastScaleEvent : alarm.Config -> alarm.Event * option error)
        (config : alarm.Config) (waitPeriod : Z) :
  match snd (lastScaleEvent config) with
  | Some (Err msg) =>
      alarm.shouldWait now lastScaleEvent config waitPeriod
      = (false, Some (Err msg))
  | _ => snd (alarm.shouldWait now lastScaleEvent config waitPeriod) = None
  end.
Proof.
  unfold alarm.shouldWait.
  destruct (lastScaleEvent config) as [ev [[|msg]|]]; simpl;
    try reflexivity;
    repeat match goal with |- context [if ?b then _ else _] => destruct b end;
    reflexivity.
Qed.

(** X2. A longer wait period never makes an alarm eligible: when
    shouldWait answers true for a wait period, it answers true for every
    longer one. *)
Theorem shouldWait_monotone_in_wait
        (now : Time) (lastScaleEvent : alarm.Config -> alarm.Event * option error)
        (config : alarm.Config) (waitPeriod waitPeriod' : Z) :
  alarm.shouldWait now lastScaleEvent config waitPeriod = (true, None) ->
  waitPeriod <= waitPeriod' ->
  alarm.shouldWait now lastScaleEvent config waitPeriod' = (true, None).
Proof.
  unfold alarm.shouldWait.
  destruct (lastScaleEvent config) as [ev err].
  destruct (negb (is_nil err) && negb (is_ErrNotFound err)); [discriminate|].
  destruct (negb (is_ErrNotFound err) && time.IsZero (alarm.EndTime ev));
    [reflexivity|].
  cbv zeta.
  destruct (Z.ltb_spec waitPeriod (time.Sub now (alarm.EndTime ev)));
    [discriminate|].
  intros _ Hle.
  destruct (Z.ltb_spec waitPeriod' (time.Sub now (alarm.EndTime ev)));
    [lia | reflexivity].
Qed.

Lemma shouldWait_monotone_in_wait_witness :
  alarm.shouldWait 63000000090000000000 (fun _ => (sample.closed, None))
                   sample.rush 60000000000 = (true, None).
Proof.
  apply (shouldWait_monotone_in_wait 63000000090000000000
           (fun _ => (sample.closed, None)) sample.rush
           30000000000 60000000000).
  - reflexivity.
  - lia.
Defined.

(** X3. With the same event history, an alarm that is eligible stays
    eligible as time passes: when shouldWait answers false without error
    at some time, it does so at every later time. *)
Theorem shouldWait_monotone_in_time
        (now now' : Time)
        (lastScaleEvent : alarm.Config -> alarm.Event * option error)
        (config : alarm.Config) (waitPeriod : Z) :
  alarm.shouldWait now lastScaleEvent config waitPeriod = (false, None) ->
  now <= now' ->
  alarm.shouldWait now' lastScaleEvent config waitPeriod = (false, None).
Proof.
  unfold alarm.shouldWait.
  destruct (lastScaleEvent config) as [ev err].
  destruct (negb (is_nil err) && negb (is_ErrNotFound err)) eqn:E.
  - destruct err; [discriminate | discriminate E].
  - destruct (negb (is_ErrNotFound err) && time.IsZero (alarm.EndTime ev));
      [discriminate|].
    cbv zeta.
    destruct (Z.ltb_spec waitPeriod (time.Sub now (alarm.EndTime ev)));
      [|discriminate].
    intros _ Hle.
    pose proof (Sub_monotone now now' (alarm.EndTime ev) Hle).
    destruct (Z.ltb_spec waitPeriod (time.Sub now' (alarm.EndTime ev)));
      [reflexivity | lia].
Qed.

Lemma shouldWait_monotone_in_time_witness :
  alarm.shouldWait 63000000120000000000 (fun _ => (sample.closed, None))
                   sample.rush 10000000000 = (false, None).
Proof.
  apply (shouldWait_monotone_in_time 63000000090000000000
           63000000120000000000
           (fun _ => (sample.closed, None)) sample.rush 10000000000).
  - reflexivity.
  - lia.
Defined.

(** X4. A configuration with no prior event, for which the lookup
    reports not-found and leaves an Event whose EndTime is the zero time,
    is eligible at once for every wait period below the largest Duration,
    on any clock that is at least the largest Duration away from the zero
    time (any date after the year 293). *)
Theorem shouldWait_first_event_eligible
        (now : Time) (config : alarm.Config) (waitPeriod : Z)
        (lastEvent : alarm.Event) :
  alarm.EndTime lastEvent = 0 ->
  maxDuration <= now -> waitPeriod < maxDuration ->
  alarm.shouldWait now (fun _ => (lastEvent, Some ErrNotFound))
                   config waitPeriod = (false, None).
Proof.
  intros Hend Hnow Hw. unfold alarm.shouldWait. simpl. rewrite Hend.
  assert (Hs : time.Sub now 0 = maxDuration \/ time.Sub now 0 = now).
  { unfold time.Sub. replace (now - 0) with now by lia.
    destruct (Z.ltb_spec maxDuration now); [left; reflexivity|].
    destruct (Z.ltb_spec now minDuration);
      [unfold minDuration, maxDuration in *; lia | right; reflexivity]. }
  destruct (Z.ltb_spec waitPeriod (time.Sub now 0)); [reflexivity|].
  destruct Hs as [Hs|Hs]; rewrite Hs in *; lia.
Qed.

Lemma shouldWait_first_event_eligible_witness :
  alarm.shouldWait 63000000090000000000
                   (fun _ => (sample.noEvent, Some ErrNotFound))
                   sample.rush 30000000000 = (false, None).
Proof.
  apply (shouldWait_first_event_eligible 63000000090000000000 sample.rush
                                         30000000000 sample.noEvent).
  - reflexivity.
  - vm_compute. discriminate.
  - vm_compute. reflexivity.
Defined.

(** X5. AutoScaleEnable and AutoScaleDisable never fail and change nothing
    but the Enabled flag, which the last of them to run decides. *)
Theorem AutoScaleEnable_Disable (config : alarm.Config) :
  let on := alarm.AutoScaleEnable config in
  let off := alarm.AutoScaleDisable config in
  snd on = None /\ snd off = None /\
  alarm.Enabled (fst on) = true /\ alarm.Enabled (fst off) = false /\
  alarm.AutoScaleDisable (fst on) = off /\
  alarm.AutoScaleEnable (fst off) = on /\
  (alarm.Enabled config = true -> fst on = config) /\
  (alarm.Enabled config = false -> fst off = config) /\
  alarm.Name (fst on) = alarm.Name config /\
  alarm.Increase (fst on) = alarm.Increase config /\
  alarm.Decrease (fst on) = alarm.Decrease config /\
  alarm.MinUnits (fst on) = alarm.MinUnits config /\
  alarm.MaxUnits (fst on) = alarm.MaxUnits config.
Proof.
  destruct config as [n i d mn mx e]. simpl.
  repeat split; intros; subst; reflexivity.
Qed.

Lemma AutoScaleEnable_Disable_witness :
  fst (alarm.AutoScaleEnable sample.rush) = sample.rush.
Proof.
  apply (AutoScaleEnable_Disable sample.rush). reflexivity.
Defined.

(** * Further properties of package wizard *)

Lemma Storage_eta (st : Storage) :
  mkStorage (AlarmColl st) (DataSourceColl st) (WizardColl st) (ConnErr st)
  = st.
Proof. destruct st; reflexivity. Qed.

(** The generated alarm depends on the store through the registered
    templates only. *)
Lemma scaleAlarm_setAlarms (st : Storage) (m : gmap string Alarm.t)
      (a : AutoScale.t) (kind : string) :
  wizard.scaleAlarm (setAlarms st m) a kind = wizard.scaleAlarm st a kind.
Proof. reflexivity. Qed.

Lemma up_down_names_differ (s s' : string) :
  ("scale_up_" ++ s)%string <> ("scale_down_" ++ s')%string.
Proof. intros H. vm_compute in H. discriminate H. Qed.

Lemma clampMinUnits_suffix (a : AutoScale.t) :
  design.suffix (wizard.clampMinUnits a) = design.suffix a.
Proof.
  unfold wizard.clampMinUnits.
  destruct (AutoScale.MinUnits a <=? 0); reflexivity.
Qed.

Lemma scaleAlarm_Name_up (st : Storage) (a : AutoScale.t) :
  Alarm.Name (wizard.scaleAlarm st a "scale_up")
  = ("scale_up_" ++ design.suffix a)%string.
Proof. rewrite scaleAlarm_scale_up. reflexivity. Qed.

Lemma scaleAlarm_Name_down (st : Storage) (a : AutoScale.t) :
  Alarm.Name (wizard.scaleAlarm st a "scale_down")
  = ("scale_down_" ++ design.suffix a)%string.
Proof. rewrite scaleAlarm_scale_down. reflexivity. Qed.

(** What a run of New that creates both alarms leaves in the store. *)
Lemma New_both_created (valid : string -> bool) (a : AutoScale.t)
      (st : Storage) (r : option error) (a' : AutoScale.t) (st' : Storage) :
  wizard.New valid a st = (r, a', st') ->
  r = None ->
  let up := wizard.scaleAlarm st (wizard.clampMinUnits a) "scale_up" in
  let down := wizard.scaleAlarm st (wizard.clampMinUnits a) "scale_down" in
  a' = wizard.clampMinUnits a /\
  AlarmColl st !! Alarm.Name up = None /\
  AlarmColl st !! Alarm.Name down = None /\
  AlarmColl st'
  = <[Alarm.Name down := down]> (<[Alarm.Name up := up]> (AlarmColl st)) /\
  DataSourceColl st' = DataSourceColl st /\
  ConnErr st' = ConnErr st /\
  WizardColl st'
  = match ConnErr st with
    | Some _ => WizardColl st
    | None => (WizardColl st ++ a' :: nil)%list
    end.
Proof.
  unfold wizard.New, wizard.newScaleAction. intros H ->.
  set (c := wizard.clampMinUnits a) in *.
  destruct (wizard.NewAlarm valid (wizard.scaleAlarm st c "scale_up") st)
    as [[e1|] st1] eqn:E1; [discriminate|].
  apply NewAlarm_success in E1 as [Hup ->].
  rewrite scaleAlarm_setAlarms in H.
  destruct (wizard.NewAlarm valid (wizard.scaleAlarm st c "scale_down") _)
    as [[e2|] st2] eqn:E2; [discriminate|].
  apply NewAlarm_success in E2 as [Hdown ->].
  cbn [AlarmColl DataSourceColl WizardColl ConnErr setAlarms setWizards] in *.
  assert (Hne : Alarm.Name (wizard.scaleAlarm st c "scale_up")
                <> Alarm.Name (wizard.scaleAlarm st c "scale_down"))
    by (rewrite scaleAlarm_Name_up, scaleAlarm_Name_down;
        apply up_down_names_differ).
  rewrite lookup_insert_ne in Hdown by exact Hne.
  destruct (ConnErr st) eqn:Ec; injection H as <- <-;
    cbn [AlarmColl DataSourceColl WizardColl ConnErr setAlarms setWizards];
    rewrite ?Ec; repeat split; auto.
Qed.

(** X6. The naming convention does not tell an auto scale with a process
    from an auto scale without process whose name ends with an underscore
    and that process: both have the same two alarm names, so the alarms
    generated for one are the alarms Enabled, Enable, Disable and Remove
    reach for the other. *)
Theorem alarms_name_collision (a b : AutoScale.t) :
  AutoScale.Process a <> "" ->
  AutoScale.Process b = "" ->
  AutoScale.Name b = (AutoScale.Name a ++ "_" ++ AutoScale.Process a)%string ->
  wizard.alarms b = wizard.alarms a /\
  (forall st kind,
      Alarm.Name (wizard.scaleAlarm st b kind)
      = Alarm.Name (wizard.scaleAlarm st a kind)) /\
  (forall st, wizard.Enabled b st = wizard.Enabled a st) /\
  (forall st, wizard.removeAlarms b st = wizard.removeAlarms a st).
Proof.
  intros Ha Hb Hn.
  assert (Hal : wizard.alarms b = wizard.alarms a).
  { unfold wizard.alarms. rewrite Hb, Hn.
    apply String.eqb_neq in Ha. rewrite Ha. reflexivity. }
  split; [exact Hal|]. split.
  - intros st kind. unfold wizard.scaleAlarm.
    rewrite Hb, Hn. apply String.eqb_neq in Ha. rewrite Ha.
    cbn [String.eqb].
    destruct (kind =? "scale_up")%string, (kind =? "scale_down")%string;
      reflexivity.
  - split; intros st.
    + unfold wizard.Enabled. rewrite Hal. reflexivity.
    + unfold wizard.removeAlarms. rewrite Hal. reflexivity.
Qed.

Lemma alarms_name_collision_witness :
  wizard.alarms fixture.apiWorker = wizard.alarms fixture.worker.
Proof.
  apply (alarms_name_collision fixture.worker fixture.apiWorker).
  - discriminate.
  - reflexivity.
  - reflexivity.
Defined.

(** X7. When New returns nil, both alarms are in the alarm collection as
    they were generated, under two different names that were free before,
    and the auto scale reads as enabled. *)
Theorem New_success_enabled
        (valid : string -> bool) (a a' : AutoScale.t) (st st' : Storage) :
  wizard.New valid a st = (None, a', st') ->
  let upName := ("scale_up_" ++ design.suffix a)%string in
  let downName := ("scale_down_" ++ design.suffix a)%string in
  upName <> downName /\
  AlarmColl st !! upName = None /\ AlarmColl st !! downName = None /\
  AlarmColl st' !! upName = Some (wizard.scaleAlarm st a' "scale_up") /\
  AlarmColl st' !! downName = Some (wizard.scaleAlarm st a' "scale_down") /\
  wizard.Enabled a' st' = true /\ wizard.Enabled a st' = true.
Proof.
  intros H upName downName.
  pose proof (New_both_created valid a st None a' st' H eq_refl)
    as (-> & Hup & Hdown & Hal & _).
  rewrite scaleAlarm_Name_up, clampMinUnits_suffix in Hup, Hal.
  rewrite scaleAlarm_Name_down, clampMinUnits_suffix in Hdown, Hal.
  fold upName downName in Hup, Hdown, Hal.
  assert (Hne : upName <> downName) by apply up_down_names_differ.
  assert (Hu : AlarmColl st' !! upName
               = Some (wizard.scaleAlarm st (wizard.clampMinUnits a) "scale_up")).
  { rewrite Hal, lookup_insert_ne by congruence. apply lookup_insert_eq. }
  assert (Hd : AlarmColl st' !! downName
               = Some (wizard.scaleAlarm st (wizard.clampMinUnits a)
                                         "scale_down")).
  { rewrite Hal. apply lookup_insert_eq. }
  assert (He : wizard.Enabled a st' = true).
  { unfold wizard.Enabled. rewrite alarms_names. fold upName downName.
    cbn [wizard.EnabledLoop]. unfold wizard.FindAlarmByName.
    rewrite Hu, Hd. rewrite scaleAlarm_scale_up, scaleAlarm_scale_down.
    reflexivity. }
  repeat split; auto.
  unfold wizard.Enabled in *. rewrite alarms_names in *.
  rewrite clampMinUnits_suffix. exact He.
Qed.

Lemma New_success_enabled_witness :
  wizard.Enabled sample.api fixture.created = true.
Proof.
  eapply (New_success_enabled sample.anyExpression sample.api
            (wizard.clampMinUnits sample.api) sample.emptyStorage
            fixture.created).
  vm_compute. reflexivity.
Defined.

(** X8. A connection that fails once both alarms exist is not reported:
    New returns nil, the two alarms stay, the auto scale is not stored and
    cannot be found by name afterwards. *)
Theorem New_connection_error_swallowed
        (valid : string -> bool) (a : AutoScale.t) (st st1 st2 : Storage)
        (err : error) :
  ConnErr st = Some err ->
  wizard.newScaleAction valid (wizard.clampMinUnits a) "scale_up" st
  = (None, st1) ->
  wizard.newScaleAction valid (wizard.clampMinUnits a) "scale_down" st1
  = (None, st2) ->
  wizard.New valid a st = (None, wizard.clampMinUnits a, st2) /\
  WizardColl st2 = WizardColl st /\
  wizard.FindByName (AutoScale.Name a) st2 = inr err /\
  wizard.Enabled a st2 = true.
Proof.
  intros Hc Hup Hdown.
  assert (Hc2 : ConnErr st2 = Some err).
  { apply newScaleAction_store in Hup as (_ & _ & H1).
    apply newScaleAction_store in Hdown as (_ & _ & H2). congruence. }
  assert (HNew : wizard.New valid a st = (None, wizard.clampMinUnits a, st2)).
  { unfold wizard.New. rewrite Hup, Hdown, Hc2. reflexivity. }
  split; [exact HNew|].
  pose proof (New_both_created valid a st None _ st2 HNew eq_refl)
    as (_ & Hu & Hd & Hal & _ & _ & Hw).
  rewrite Hc in Hw. split; [exact Hw|]. split.
  - unfold wizard.FindByName, wizard.FindBy. rewrite Hc2. reflexivity.
  - rewrite scaleAlarm_Name_up, clampMinUnits_suffix in Hal.
    rewrite scaleAlarm_Name_down, clampMinUnits_suffix in Hal.
    unfold wizard.Enabled. rewrite alarms_names.
    cbn [wizard.EnabledLoop]. unfold wizard.FindAlarmByName.
    rewrite Hal.
    rewrite lookup_insert_ne by (intros E; symmetry in E;
                                 exact (up_down_names_differ _ _ E)).
    rewrite lookup_insert_eq, lookup_insert_eq.
    rewrite scaleAlarm_scale_up, scaleAlarm_scale_down. reflexivity.
Qed.

Lemma New_connection_error_swallowed_witness :
  fst (fst (wizard.New sample.anyExpression sample.api fixture.offline)) = None
  /\ WizardColl (snd (wizard.New sample.anyExpression sample.api
                                 fixture.offline)) = nil.
Proof.
  destruct (New_connection_error_swallowed sample.anyExpression sample.api
              fixture.offline
              (snd (wizard.newScaleAction sample.anyExpression
                      (wizard.clampMinUnits sample.api) "scale_up"
                      fixture.offline))
              (snd (wizard.New sample.anyExpression sample.api
                               fixture.offline))
              (Err "no reachable servers"))
    as (HNew & Hw & _).
  - reflexivity.
  - vm_compute. reflexivity.
  - vm_compute. reflexivity.
  - rewrite HNew. split; [reflexivity | exact Hw].
Defined.

Lemma NewAlarm_keeps (valid : string -> bool) (al : Alarm.t)
      (st st' : Storage) (r : option error) :
  wizard.NewAlarm valid al st = (r, st') ->
  (forall n x, AlarmColl st !! n = Some x -> AlarmColl st' !! n = Some x) /\
  WizardColl st' = WizardColl st /\
  DataSourceColl st' = DataSourceColl st /\ ConnErr st' = ConnErr st.
Proof.
  intros H. destruct r as [e|].
  - apply NewAlarm_failure in H. subst. auto.
  - apply NewAlarm_success in H as [Hfree ->].
    cbn [AlarmColl WizardColl DataSourceColl ConnErr setAlarms].
    repeat split. intros n x Hn.
    rewrite lookup_insert_ne; [exact Hn | congruence].
Qed.

(** X9. New never removes or replaces what is stored: whatever it
    returns, every alarm that was in the alarm collection is still there
    unchanged, the registered templates are the same, and the stored auto
    scales are the same, followed by at most the new one. When the first
    creation fails the store is left as it was. *)
Theorem New_keeps_store
        (valid : string -> bool) (a : AutoScale.t) (st : Storage) :
  let '(r, a', st') := wizard.New valid a st in
  (forall n al, AlarmColl st !! n = Some al -> AlarmColl st' !! n = Some al) /\
  DataSourceColl st' = DataSourceColl st /\
  (WizardColl st' = WizardColl st \/
   WizardColl st' = (WizardColl st ++ a' :: nil)%list) /\
  (fst (wizard.newScaleAction valid (wizard.clampMinUnits a) "scale_up" st)
   <> None -> r <> None /\ st' = st).
Proof.
  unfold wizard.New, wizard.newScaleAction.
  set (c := wizard.clampMinUnits a).
  destruct (wizard.NewAlarm valid (wizard.scaleAlarm st c "scale_up") st)
    as [[e1|] st1] eqn:E1.
  { pose proof (NewAlarm_failure _ _ _ _ _ E1). subst st1. cbn [fst].
    split; [auto|]. split; [auto|]. split; [auto|].
    intros _. split; [discriminate | reflexivity]. }
  apply NewAlarm_keeps in E1 as (K1 & W1 & D1 & C1). cbn [fst].
  destruct (wizard.NewAlarm valid (wizard.scaleAlarm st1 c "scale_down") st1)
    as [[e2|] st2] eqn:E2;
    apply NewAlarm_keeps in E2 as (K2 & W2 & D2 & C2).
  { split; [auto|]. split; [congruence|]. split; [left; congruence|].
    intros Hx. contradiction. }
  destruct (ConnErr st2);
    cbn [AlarmColl WizardColl DataSourceColl ConnErr setWizards].
  - split; [auto|]. split; [congruence|]. split; [left; congruence|].
    intros Hx. contradiction.
  - split; [auto|]. split; [congruence|]. split; [right; congruence|].
    intros Hx. contradiction.
Qed.

Lemma New_keeps_store_witness :
  snd (wizard.New sample.anyExpression sample.api fixture.created)
  = fixture.created.
Proof.
  pose proof (New_keeps_store sample.anyExpression sample.api fixture.created)
    as H.
  destruct (wizard.New sample.anyExpression sample.api fixture.created)
    as [[r a'] st'].
  destruct H as (_ & _ & _ & H).
  destruct H as [_ ->]; [vm_compute; discriminate | reflexivity].
Defined.


Lemma FindByName_fresh (name : string) (a : AutoScale.t) (st : Storage) :
  ConnErr st = None -> AutoScale.Name a = name ->
  Forall (fun x => AutoScale.Name x <> name) (WizardColl st) ->
  wizard.FindByName name (setWizards st (WizardColl st ++ a :: nil)) = inl a.
Proof.
  intros Hc Hn Hf. unfold wizard.FindByName, wizard.FindBy.
  cbn [ConnErr WizardColl setWizards]. rewrite Hc.
  induction Hf as [|x l Hx Hl IH]; simpl.
  - rewrite filter_cons. destruct (decide (AutoScale.Name a = name));
      [reflexivity | contradiction].
  - rewrite filter_cons. destruct (decide (AutoScale.Name x = name));
      [contradiction | exact IH].
Qed.

(** X11. After a New that returns nil on a reachable store in which no
    auto scale of that name was stored, FindByName of the name answers
    with the configuration as New clamped it. *)
Theorem New_then_FindByName
        (valid : string -> bool) (a a' : AutoScale.t) (st st' : Storage) :
  wizard.New valid a st = (None, a', st') ->
  ConnErr st = None ->
  Forall (fun x => AutoScale.Name x <> AutoScale.Name a) (WizardColl st) ->
  wizard.FindByName (AutoScale.Name a) st' = inl a' /\
  a' = wizard.clampMinUnits a.
Proof.
  intros H Hc Hf.
  pose proof (New_both_created valid a st None a' st' H eq_refl)
    as (-> & _ & _ & _ & _ & Hc' & Hw).
  rewrite Hc in Hw. split; [|reflexivity].
  pose proof (FindByName_fresh (AutoScale.Name a) (wizard.clampMinUnits a)
                st Hc (clampMinUnits_Name a) Hf) as HF.
  unfold wizard.FindByName, wizard.FindBy in *.
  cbn [ConnErr WizardColl setWizards] in HF.
  rewrite Hc', Hc, Hw. rewrite Hc in HF. exact HF.
Qed.

Lemma New_then_FindByName_witness :
  wizard.FindByName "api" fixture.created = inl fixture.api1.
Proof.
  apply (New_then_FindByName sample.anyExpression sample.api fixture.api1
                             sample.emptyStorage fixture.created).
  - vm_compute. reflexivity.
  - reflexivity.
  - constructor.
Defined.

(** X12. New does not look at the stored auto scales: when one of the same
    name is stored already (its alarms differ by the process), New stores
    a second one, and FindByName keeps answering with the older one. *)
Theorem New_shadowed_by_older
        (valid : string -> bool) (a a' older : AutoScale.t)
        (st st' : Storage) :
  wizard.New valid a st = (None, a', st') ->
  wizard.FindByName (AutoScale.Name a) st = inl older ->
  wizard.FindByName (AutoScale.Name a) st' = inl older /\
  WizardColl st' = (WizardColl st ++ a' :: nil)%list.
Proof.
  intros H Hold.
  pose proof (New_both_created valid a st None a' st' H eq_refl)
    as (-> & _ & _ & _ & _ & Hc' & Hw).
  unfold wizard.FindByName, wizard.FindBy in *.
  destruct (ConnErr st) as [e|] eqn:Hc; [discriminate|].
  rewrite Hc', Hw. split; [|reflexivity].
  rewrite filter_app.
  destruct (filter (λ w, AutoScale.Name w = AutoScale.Name a) (WizardColl st))
    as [|w l]; [discriminate|].
  exact Hold.
Qed.

Lemma New_shadowed_by_older_witness :
  wizard.FindByName "api"
    (snd (wizard.New sample.anyExpression fixture.worker fixture.created))
  = inl fixture.api1.
Proof.
  apply (New_shadowed_by_older sample.anyExpression fixture.worker
           fixture.worker fixture.api1 fixture.created
           (snd (wizard.New sample.anyExpression fixture.worker
                            fixture.created))).
  - vm_compute. reflexivity.
  - vm_compute. reflexivity.
Defined.

Lemma keyedByName_empty : keyedByName sample.emptyStorage.
Proof.
  intros n al H. unfold sample.emptyStorage in H. cbn [AlarmColl] in H.
  rewrite lookup_empty in H. discriminate.
Qed.

Lemma keyedByName_insert (st : Storage) (al : Alarm.t) :
  keyedByName st ->
  keyedByName (setAlarms st (<[Alarm.Name al := al]> (AlarmColl st))).
Proof.
  intros Hk n x. cbn [AlarmColl setAlarms].
  destruct (decide (Alarm.Name al = n)) as [<-|Hne].
  - rewrite lookup_insert_eq. congruence.
  - rewrite lookup_insert_ne by exact Hne. apply Hk.
Qed.

Lemma keyedByName_delete (st : Storage) (n : string) :
  keyedByName st -> keyedByName (setAlarms st (delete n (AlarmColl st))).
Proof.
  intros Hk m x. cbn [AlarmColl setAlarms].
  intros H. apply lookup_delete_Some in H as [_ H]. apply Hk, H.
Qed.

Lemma keyedByName_setWizards (st : Storage) (l : list AutoScale.t) :
  keyedByName st -> keyedByName (setWizards st l).
Proof. intros Hk. exact Hk. Qed.

(** What [removeAlarms] does, by which of the two alarms exist. *)
Lemma removeAlarms_cases (a : AutoScale.t) (st : Storage) :
  keyedByName st ->
  let upName := ("scale_up_" ++ design.suffix a)%string in
  let downName := ("scale_down_" ++ design.suffix a)%string in
  wizard.removeAlarms a st =
  match AlarmColl st !! upName with
  | None => (Some ErrNotFound, st)
  | Some _ =>
      match AlarmColl st !! downName with
      | None =>
          (Some ErrNotFound,
           setAlarms st (delete upName (AlarmColl st)))
      | Some _ =>
          (None,
           setAlarms st (delete downName (delete upName (AlarmColl st))))
      end
  end.
Proof.
  intros Hk upName downName.
  assert (Hne : upName <> downName) by apply up_down_names_differ.
  unfold wizard.removeAlarms. rewrite alarms_names. fold upName downName.
  cbn [wizard.removeAlarmsLoop].
  unfold wizard.FindAlarmByName, wizard.RemoveAlarm.
  destruct (AlarmColl st !! upName) as [up|] eqn:Eu; [|reflexivity].
  rewrite (Hk _ _ Eu), Eu.
  cbn [AlarmColl setAlarms].
  rewrite lookup_delete_ne by exact Hne.
  destruct (AlarmColl st !! downName) as [down|] eqn:Ed; [|reflexivity].
  rewrite (Hk _ _ Ed). rewrite lookup_delete_ne by exact Hne. rewrite Ed.
  reflexivity.
Qed.

(** X13. When both alarms of an auto scale exist, removeAlarms removes
    exactly these two and returns nil: afterwards neither name is in the
    alarm collection and every other alarm is as before. *)
Theorem removeAlarms_both
        (a : AutoScale.t) (st : Storage) (up down : Alarm.t) :
  keyedByName st ->
  let upName := ("scale_up_" ++ design.suffix a)%string in
  let downName := ("scale_down_" ++ design.suffix a)%string in
  AlarmColl st !! upName = Some up ->
  AlarmColl st !! downName = Some down ->
  exists st',
    wizard.removeAlarms a st = (None, st') /\
    AlarmColl st' !! upName = None /\ AlarmColl st' !! downName = None /\
    (forall n, n <> upName -> n <> downName ->
               AlarmColl st' !! n = AlarmColl st !! n) /\
    WizardColl st' = WizardColl st /\
    wizard.Enabled a st' = false.
Proof.
  intros Hk upName downName Hu Hd.
  assert (Hne : upName <> downName) by apply up_down_names_differ.
  rewrite (removeAlarms_cases a st Hk). fold upName downName.
  rewrite Hu, Hd. eexists. split; [reflexivity|].
  cbn [AlarmColl WizardColl setAlarms].
  split; [rewrite lookup_delete_ne by congruence; apply lookup_delete_eq|].
  split; [apply lookup_delete_eq|].
  split.
  - intros n H1 H2. rewrite !lookup_delete_ne by congruence. reflexivity.
  - split; [reflexivity|].
    unfold wizard.Enabled. rewrite alarms_names. fold upName downName.
    cbn [wizard.EnabledLoop]. unfold wizard.FindAlarmByName.
    cbn [AlarmColl setAlarms].
    rewrite lookup_delete_ne by congruence. rewrite lookup_delete_eq.
    reflexivity.
Qed.

Lemma keyedByName_created : keyedByName fixture.created.
Proof.
  intros n al. change (AlarmColl fixture.created) with
    (<["scale_down_api" :=
         wizard.scaleAlarm sample.emptyStorage fixture.api1 "scale_down"]>
       (<["scale_up_api" :=
            wizard.scaleAlarm sample.emptyStorage fixture.api1 "scale_up"]>
          (∅ : gmap string Alarm.t))).
  intros H.
  apply lookup_insert_Some in H as [[<- <-]|[_ H]]; [reflexivity|].
  apply lookup_insert_Some in H as [[<- <-]|[_ H]]; [reflexivity|].
  rewrite lookup_empty in H. discriminate.
Qed.

Lemma removeAlarms_both_witness :
  exists st',
    wizard.removeAlarms sample.api fixture.created = (None, st') /\
    AlarmColl st' !! "scale_up_api" = None.
Proof.
  destruct (removeAlarms_both sample.api fixture.created
              (wizard.scaleAlarm sample.emptyStorage fixture.api1 "scale_up")
              (wizard.scaleAlarm sample.emptyStorage fixture.api1 "scale_down")
              keyedByName_created)
    as (st' & H & Hu & _).
  - vm_compute. reflexivity.
  - vm_compute. reflexivity.
  - exists st'. split; [exact H | exact Hu].
Defined.

(** X14. removeAlarms stops at the first alarm it does not find, with the
    not-found error: when the scale-up alarm is missing nothing is
    removed, and when only the scale-down alarm is missing the scale-up
    alarm has been removed all the same. *)
Theorem removeAlarms_missing (a : AutoScale.t) (st : Storage) :
  keyedByName st ->
  let upName := ("scale_up_" ++ design.suffix a)%string in
  let downName := ("scale_down_" ++ design.suffix a)%string in
  (AlarmColl st !! upName = None ->
   wizard.removeAlarms a st = (Some ErrNotFound, st)) /\
  (forall up, AlarmColl st !! upName = Some up ->
              AlarmColl st !! downName = None ->
              wizard.removeAlarms a st
              = (Some ErrNotFound,
                 setAlarms st (delete upName (AlarmColl st)))).
Proof.
  intros Hk upName downName. split.
  - intros Hu. rewrite (removeAlarms_cases a st Hk).
    fold upName. rewrite Hu. reflexivity.
  - intros up Hu Hd. rewrite (removeAlarms_cases a st Hk).
    fold upName downName. rewrite Hu, Hd. reflexivity.
Qed.

Lemma keyedByName_halfRemoved : keyedByName fixture.halfRemoved.
Proof. apply keyedByName_delete, keyedByName_created. Qed.

Lemma removeAlarms_missing_witness :
  wizard.removeAlarms sample.api fixture.halfRemoved
  = (Some ErrNotFound,
     setAlarms fixture.halfRemoved
               (delete "scale_up_api" (AlarmColl fixture.halfRemoved))).
Proof.
  apply (removeAlarms_missing sample.api fixture.halfRemoved
           keyedByName_halfRemoved)
    with (up := wizard.scaleAlarm sample.emptyStorage fixture.api1 "scale_up").
  - vm_compute. reflexivity.
  - vm_compute. reflexivity.
Defined.

Lemma removeFirst_app_fresh (a : AutoScale.t) (l : list AutoScale.t) :
  a ∉ l -> wizard.removeFirst a (l ++ a :: nil) = Some l.
Proof.
  induction l as [|w l IH]; intros Hn; simpl.
  - destruct (decide (a = a)); [reflexivity | contradiction].
  - apply not_elem_of_cons in Hn as [Hne Hn].
    destruct (decide (w = a)); [congruence|].
    rewrite (IH Hn). reflexivity.
Qed.

Lemma removeFirst_absent (a : AutoScale.t) (l : list AutoScale.t) :
  a ∉ l -> wizard.removeFirst a l = None.
Proof.
  induction l as [|w l IH]; intros Hn; simpl; [reflexivity|].
  apply not_elem_of_cons in Hn as [Hne Hn].
  destruct (decide (w = a)); [congruence|].
  rewrite (IH Hn). reflexivity.
Qed.

Lemma delete_delete_insert_insert
      (m : gmap string Alarm.t) (k1 k2 : string) (v1 v2 : Alarm.t) :
  m !! k1 = None -> m !! k2 = None ->
  delete k2 (delete k1 (<[k2 := v2]> (<[k1 := v1]> m))) = m.
Proof.
  intros H1 H2. apply map_eq. intros i.
  destruct (decide (i = k2)) as [->|N2];
    [rewrite lookup_delete_eq; congruence|].
  rewrite lookup_delete_ne by congruence.
  destruct (decide (i = k1)) as [->|N1];
    [rewrite lookup_delete_eq; congruence|].
  rewrite lookup_delete_ne by congruence.
  rewrite !lookup_insert_ne by congruence. reflexivity.
Qed.

(** X15. Remove undoes New: after a New that returns nil on a reachable
    store in which the clamped configuration was not stored yet, Remove
    of that configuration returns nil and leaves the store exactly as it
    was before New. *)
Theorem New_then_Remove
        (valid : string -> bool) (a a' : AutoScale.t) (st st' : Storage) :
  keyedByName st ->
  wizard.New valid a st = (None, a', st') ->
  ConnErr st = None ->
  a' ∉ WizardColl st ->
  wizard.Remove a' st' = (None, st).
Proof.
  intros Hk H Hc Hfresh.
  pose proof (New_both_created valid a st None a' st' H eq_refl)
    as (Ha & Hu & Hd & Hal & Hds & Hc' & Hw).
  rewrite Hc in Hw. subst a'.
  set (c := wizard.clampMinUnits a) in *.
  rewrite scaleAlarm_Name_up in Hu, Hal.
  rewrite scaleAlarm_Name_down in Hd, Hal.
  set (upName := ("scale_up_" ++ design.suffix c)%string) in *.
  set (downName := ("scale_down_" ++ design.suffix c)%string) in *.
  assert (Hne : upName <> downName) by apply up_down_names_differ.
  assert (Hk' : keyedByName st').
  { intros n x Hn. rewrite Hal in Hn.
    apply lookup_insert_Some in Hn as [[<- <-]|[_ Hn]];
      [apply scaleAlarm_Name_down|].
    apply lookup_insert_Some in Hn as [[<- <-]|[_ Hn]];
      [apply scaleAlarm_Name_up|].
    apply Hk, Hn. }
  unfold wizard.Remove. rewrite (removeAlarms_cases c st' Hk').
  fold upName downName. rewrite Hal.
  rewrite lookup_insert_ne by congruence.
  rewrite lookup_insert_eq, lookup_insert_eq.
  cbn [ConnErr WizardColl setAlarms]. rewrite Hc', Hc, Hw.
  rewrite (removeFirst_app_fresh c _ Hfresh).
  f_equal. unfold setWizards, setAlarms.
  cbn [AlarmColl DataSourceColl WizardColl ConnErr].
  rewrite Hds, Hc', Hc.
  rewrite (delete_delete_insert_insert _ upName downName _ _ Hu Hd).
  rewrite <- Hc. apply Storage_eta.
Qed.

Lemma New_then_Remove_witness :
  wizard.Remove fixture.api1 fixture.created = (None, sample.emptyStorage).
Proof.
  apply (New_then_Remove sample.anyExpression sample.api fixture.api1
                         sample.emptyStorage fixture.created
                         keyedByName_empty).
  - vm_compute. reflexivity.
  - reflexivity.
  - apply not_elem_of_nil.
Defined.

(** X16. Remove removes the alarms before it looks for the stored auto
    scale: when no stored auto scale equals the given one in every field
    (one with another MinUnits, say), Remove returns not-found and the two
    alarms are gone; and whenever Remove returns an error the stored auto
    scales are untouched. *)
Theorem Remove_not_stored (a : AutoScale.t) (st : Storage) :
  (forall st1,
      wizard.removeAlarms a st = (None, st1) ->
      ConnErr st = None -> a ∉ WizardColl st ->
      wizard.Remove a st = (Some ErrNotFound, st1)) /\
  (forall err st', wizard.Remove a st = (Some err, st') ->
                   WizardColl st' = WizardColl st).
Proof.
  split.
  - intros st1 Hr Hc Hn. unfold wizard.Remove. rewrite Hr.
    apply removeAlarmsLoop_store in Hr as (_ & Hw & Hc1).
    rewrite Hc1, Hc, Hw, (removeFirst_absent a _ Hn). reflexivity.
  - intros err st' H. unfold wizard.Remove in H.
    destruct (wizard.removeAlarms a st) as [[e|] st1] eqn:Hr;
      apply removeAlarmsLoop_store in Hr as (_ & Hw & _).
    + injection H as _ <-. exact Hw.
    + destruct (ConnErr st1); [injection H as _ <-; exact Hw|].
      destruct (wizard.removeFirst a (WizardColl st1));
        [discriminate | injection H as _ <-; exact Hw].
Qed.

Lemma Remove_not_stored_witness :
  wizard.Remove sample.api fixture.created
  = (Some ErrNotFound, setWizards sample.emptyStorage (fixture.api1 :: nil)).
Proof.
  apply (Remove_not_stored sample.api fixture.created).
  - vm_compute. reflexivity.
  - reflexivity.
  - intros H.
    assert (E : WizardColl fixture.created = fixture.api1 :: nil)
      by (vm_compute; reflexivity).
    rewrite E in H. apply list_elem_of_singleton in H. discriminate H.
Defined.





(** X17. Update does not create what is not stored: when the store cannot
    be reached or no auto scale of that name is stored, it returns an
    error, the store is as it was, and the configuration is handed back
    as it came (MinUnits is not clamped). *)
Theorem Update_unknown
        (valid : string -> bool) (a : AutoScale.t) (st : Storage) :
  (forall err, ConnErr st = Some err ->
               wizard.Update valid a st = (Some err, a, st)) /\
  (ConnErr st = None ->
   Forall (fun x => AutoScale.Name x <> AutoScale.Name a) (WizardColl st) ->
   exists err, wizard.Update valid a st = (Some err, a, st)).
Proof.
  split.
  - intros err Hc. unfold wizard.Update, wizard.FindByName, wizard.FindBy.
    rewrite Hc. reflexivity.
  - intros Hc Hf. unfold wizard.Update, wizard.FindByName, wizard.FindBy.
    rewrite Hc.
    replace (filter (λ w, AutoScale.Name w = AutoScale.Name a) (WizardColl st))
      with (@nil AutoScale.t); [eauto|].
    symmetry. induction Hf as [|x l Hx Hl IH]; [reflexivity|].
    rewrite filter_cons. destruct (decide (AutoScale.Name x = AutoScale.Name a));
      [contradiction | exact IH].
Qed.

Lemma Update_unknown_witness :
  exists err,
    wizard.Update sample.anyExpression sample.api sample.emptyStorage
    = (Some err, sample.api, sample.emptyStorage).
Proof.
  apply (Update_unknown sample.anyExpression sample.api sample.emptyStorage).
  - reflexivity.
  - constructor.
Defined.



(** X19. Update is not undone when it fails half way: once the old alarms
    are removed, a failure to create the new scale-up alarm makes Update
    return that error with both old alarms gone, the stored auto scale
    unchanged and the auto scale reading as disabled. *)
Theorem Update_no_rollback
        (valid : string -> bool) (a old : AutoScale.t)
        (st st0 st1 : Storage) (err : error) :
  keyedByName st ->
  wizard.FindByName (AutoScale.Name a) st = inl old ->
  wizard.removeAlarms old st = (None, st0) ->
  wizard.newScaleAction valid (wizard.clampMinUnits a) "scale_up" st0
  = (Some err, st1) ->
  wizard.Update valid a st = (Some err, wizard.clampMinUnits a, st0) /\
  AlarmColl st0 !! ("scale_up_" ++ design.suffix old)%string = None /\
  AlarmColl st0 !! ("scale_down_" ++ design.suffix old)%string = None /\
  WizardColl st0 = WizardColl st /\
  wizard.Enabled old st0 = false.
Proof.
  intros Hk Hf Hr Hup.
  assert (st1 = st0) by (apply NewAlarm_failure in Hup; exact Hup). subst st1.
  split; [unfold wizard.Update; rewrite Hf, Hr, Hup; reflexivity|].
  rewrite (removeAlarms_cases old st Hk) in Hr.
  set (upName := ("scale_up_" ++ design.suffix old)%string) in *.
  set (downName := ("scale_down_" ++ design.suffix old)%string) in *.
  assert (Hne : upName <> downName) by apply up_down_names_differ.
  destruct (AlarmColl st !! upName); [|discriminate].
  destruct (AlarmColl st !! downName); [|discriminate].
  injection Hr as <-. cbn [AlarmColl WizardColl setAlarms].
  assert (Hu : delete downName (delete upName (AlarmColl st)) !! upName = None)
    by (rewrite lookup_delete_ne by congruence; apply lookup_delete_eq).
  split; [exact Hu|]. split; [apply lookup_delete_eq|].
  split; [reflexivity|].
  unfold wizard.Enabled. rewrite alarms_names. fold upName downName.
  cbn [wizard.EnabledLoop]. unfold wizard.FindAlarmByName.
  cbn [AlarmColl setAlarms]. rewrite Hu. reflexivity.
Qed.

Lemma Update_no_rollback_witness :
  wizard.Update (fun _ => false) sample.api fixture.created
  = (Some (Err "invalid expression"), fixture.api1,
     setWizards sample.emptyStorage (fixture.api1 :: nil)).
Proof.
  apply (Update_no_rollback (fun _ => false) sample.api fixture.api1
           fixture.created
           (setWizards sample.emptyStorage (fixture.api1 :: nil))
           (setWizards sample.emptyStorage (fixture.api1 :: nil))
           (Err "invalid expression") keyedByName_created).
  - vm_compute. reflexivity.
  - vm_compute. reflexivity.
  - vm_compute. reflexivity.
Defined.

(** What [Enable] and [Disable] do, by which of the two alarms exist. *)
Lemma forAlarms_setEnabled (b : bool) (a : AutoScale.t) (st : Storage) :
  keyedByName st ->
  let upName := ("scale_up_" ++ design.suffix a)%string in
  let downName := ("scale_down_" ++ design.suffix a)%string in
  wizard.forAlarms (wizard.alarmSetEnabled b) (wizard.alarms a) st =
  match AlarmColl st !! upName with
  | None => (Some ErrNotFound, st)
  | Some up =>
      match AlarmColl st !! downName with
      | None =>
          (Some ErrNotFound,
           setAlarms st (<[upName := wizard.withEnabled up b]> (AlarmColl st)))
      | Some down =>
          (None,
           setAlarms st
             (<[downName := wizard.withEnabled down b]>
                (<[upName := wizard.withEnabled up b]> (AlarmColl st))))
      end
  end.
Proof.
  intros Hk upName downName.
  assert (Hne : upName <> downName) by apply up_down_names_differ.
  rewrite alarms_names. fold upName downName.
  cbn [wizard.forAlarms].
  unfold wizard.FindAlarmByName, wizard.alarmSetEnabled.
  destruct (AlarmColl st !! upName) as [up|] eqn:Eu; [|reflexivity].
  rewrite (Hk _ _ Eu), Eu.
  cbn [AlarmColl setAlarms].
  rewrite lookup_insert_ne by exact Hne.
  destruct (AlarmColl st !! downName) as [down|] eqn:Ed; [|reflexivity].
  rewrite (Hk _ _ Ed). rewrite lookup_insert_ne by exact Hne. rewrite Ed.
  reflexivity.
Qed.

(** X20. When both alarms of an auto scale exist, Enable and Disable
    return nil and set the Enabled flag of these two alarms and nothing
    else: afterwards the auto scale reads as enabled, respectively as
    disabled, every other field of the two alarms and every other alarm
    is as before. *)
Theorem Enable_Disable_both
        (b : bool) (a : AutoScale.t) (st : Storage) (up down : Alarm.t) :
  keyedByName st ->
  let upName := ("scale_up_" ++ design.suffix a)%string in
  let downName := ("scale_down_" ++ design.suffix a)%string in
  AlarmColl st !! upName = Some up ->
  AlarmColl st !! downName = Some down ->
  let '(err, st') := if b then wizard.Enable a st else wizard.Disable a st in
  err = None /\
  wizard.Enabled a st' = b /\
  AlarmColl st' !! upName = Some (wizard.withEnabled up b) /\
  AlarmColl st' !! downName = Some (wizard.withEnabled down b) /\
  (forall n, n <> upName -> n <> downName ->
             AlarmColl st' !! n = AlarmColl st !! n) /\
  WizardColl st' = WizardColl st.
Proof.
  intros Hk upName downName Hu Hd.
  assert (Hne : upName <> downName) by apply up_down_names_differ.
  assert (E : (if b then wizard.Enable a st else wizard.Disable a st)
              = wizard.forAlarms (wizard.alarmSetEnabled b) (wizard.alarms a) st)
    by (destruct b; reflexivity).
  rewrite E, (forAlarms_setEnabled b a st Hk). fold upName downName.
  rewrite Hu, Hd. cbn [AlarmColl WizardColl setAlarms].
  split; [reflexivity|].
  assert (Hu' : <[downName := wizard.withEnabled down b]>
                  (<[upName := wizard.withEnabled up b]> (AlarmColl st))
                !! upName = Some (wizard.withEnabled up b))
    by (rewrite lookup_insert_ne by congruence; apply lookup_insert_eq).
  split.
  - unfold wizard.Enabled. rewrite alarms_names. fold upName downName.
    cbn [wizard.EnabledLoop]. unfold wizard.FindAlarmByName.
    cbn [AlarmColl setAlarms]. rewrite Hu', lookup_insert_eq.
    destruct b; reflexivity.
  - split; [exact Hu'|]. split; [apply lookup_insert_eq|].
    split; [|reflexivity].
    intros n H1 H2. rewrite !lookup_insert_ne by congruence. reflexivity.
Qed.

Lemma Enable_Disable_both_witness :
  wizard.Enabled sample.api (snd (wizard.Disable sample.api fixture.created))
  = false.
Proof.
  pose proof (Enable_Disable_both false sample.api fixture.created
                (wizard.scaleAlarm sample.emptyStorage fixture.api1 "scale_up")
                (wizard.scaleAlarm sample.emptyStorage fixture.api1
                                   "scale_down")
                keyedByName_created) as H.
  cbv zeta in H.
  destruct (wizard.Disable sample.api fixture.created) as [err st'] eqn:E.
  apply H.
  - vm_compute. reflexivity.
  - vm_compute. reflexivity.
Defined.

Lemma withEnabled_twice (al : Alarm.t) (b : bool) :
  Alarm.Enabled al = b ->
  wizard.withEnabled (wizard.withEnabled al (negb b)) b = al.
Proof. destruct al. simpl. intros ->. reflexivity. Qed.

Lemma keyedByName_setEnabled (st : Storage) (n1 n2 : string)
      (x1 x2 : Alarm.t) (b : bool) :
  keyedByName st ->
  AlarmColl st !! n1 = Some x1 -> AlarmColl st !! n2 = Some x2 ->
  keyedByName
    (setAlarms st (<[n2 := wizard.withEnabled x2 b]>
                     (<[n1 := wizard.withEnabled x1 b]> (AlarmColl st)))).
Proof.
  intros Hk H1 H2 n x. cbn [AlarmColl setAlarms]. intros H.
  apply lookup_insert_Some in H as [[<- <-]|[_ H]]; [apply (Hk _ _ H2)|].
  apply lookup_insert_Some in H as [[<- <-]|[_ H]]; [apply (Hk _ _ H1)|].
  apply Hk, H.
Qed.

(** X21. Disable followed by Enable gives back the store: when both
    alarms of an auto scale exist and are enabled, disabling and then
    enabling the auto scale returns nil twice and leaves every alarm
    exactly as it was. *)
Theorem Disable_then_Enable
        (a : AutoScale.t) (st : Storage) (up down : Alarm.t) :
  keyedByName st ->
  AlarmColl st !! ("scale_up_" ++ design.suffix a)%string = Some up ->
  AlarmColl st !! ("scale_down_" ++ design.suffix a)%string = Some down ->
  Alarm.Enabled up = true -> Alarm.Enabled down = true ->
  fst (wizard.Disable a st) = None /\
  wizard.Enable a (snd (wizard.Disable a st)) = (None, st).
Proof.
  intros Hk Hu Hd Eu Ed.
  set (upName := ("scale_up_" ++ design.suffix a)%string) in *.
  set (downName := ("scale_down_" ++ design.suffix a)%string) in *.
  assert (Hne : upName <> downName) by apply up_down_names_differ.
  unfold wizard.Disable, wizard.Enable, wizard.alarmDisable, wizard.alarmEnable.
  rewrite (forAlarms_setEnabled false a st Hk). fold upName downName.
  rewrite Hu, Hd. split; [reflexivity|]. cbn [snd].
  rewrite (forAlarms_setEnabled true a _
             (keyedByName_setEnabled st upName downName up down false
                                     Hk Hu Hd)).
  fold upName downName. cbn [AlarmColl setAlarms].
  rewrite lookup_insert_ne by congruence.
  rewrite lookup_insert_eq, lookup_insert_eq.
  pose proof (withEnabled_twice up true Eu) as Wu.
  pose proof (withEnabled_twice down true Ed) as Wd.
  cbn [negb] in Wu, Wd. rewrite Wu, Wd.
  assert (Hm : <[downName := down]>
                 (<[upName := up]>
                    (<[downName := wizard.withEnabled down false]>
                       (<[upName := wizard.withEnabled up false]>
                          (AlarmColl st)))) = AlarmColl st).
  { apply map_eq. intros i.
    destruct (decide (i = downName)) as [->|N2];
      [rewrite lookup_insert_eq; congruence|].
    rewrite lookup_insert_ne by congruence.
    destruct (decide (i = upName)) as [->|N1];
      [rewrite lookup_insert_eq; congruence|].
    rewrite !lookup_insert_ne by congruence. reflexivity. }
  unfold setAlarms. cbn [AlarmColl DataSourceColl WizardColl ConnErr].
  rewrite Hm, Storage_eta. reflexivity.
Qed.

Lemma Disable_then_Enable_witness :
  wizard.Enable sample.api (snd (wizard.Disable sample.api fixture.created))
  = (None, fixture.created).
Proof.
  apply (Disable_then_Enable sample.api fixture.created
           (wizard.scaleAlarm sample.emptyStorage fixture.api1 "scale_up")
           (wizard.scaleAlarm sample.emptyStorage fixture.api1 "scale_down")
           keyedByName_created).
  - vm_compute. reflexivity.
  - vm_compute. reflexivity.
  - reflexivity.
  - reflexivity.
Defined.

(** X22. Enable and Disable stop at the first alarm they do not find,
    with the not-found error: when the scale-up alarm is missing nothing
    changes, and when only the scale-down alarm is missing the flag of the
    scale-up alarm has been set all the same. *)
Theorem Enable_Disable_missing (b : bool) (a : AutoScale.t) (st : Storage) :
  keyedByName st ->
  let upName := ("scale_up_" ++ design.suffix a)%string in
  let downName := ("scale_down_" ++ design.suffix a)%string in
  let run := if b then wizard.Enable a st else wizard.Disable a st in
  (AlarmColl st !! upName = None -> run = (Some ErrNotFound, st)) /\
  (forall up, AlarmColl st !! upName = Some up ->
              AlarmColl st !! downName = None ->
              run = (Some ErrNotFound,
                     setAlarms st (<[upName := wizard.withEnabled up b]>
                                     (AlarmColl st)))).
Proof.
  intros Hk upName downName run.
  assert (E : run = wizard.forAlarms (wizard.alarmSetEnabled b)
                                     (wizard.alarms a) st)
    by (subst run; destruct b; reflexivity).
  rewrite E, (forAlarms_setEnabled b a st Hk). fold upName downName.
  split.
  - intros ->. reflexivity.
  - intros up -> ->. reflexivity.
Qed.

Lemma Enable_Disable_missing_witness :
  wizard.Disable sample.api fixture.halfRemoved
  = (Some ErrNotFound,
     setAlarms fixture.halfRemoved
       (<["scale_up_api" :=
            wizard.withEnabled
              (wizard.scaleAlarm sample.emptyStorage fixture.api1 "scale_up")
              false]> (AlarmColl fixture.halfRemoved))).
Proof.
  apply (Enable_Disable_missing false sample.api fixture.halfRemoved
           keyedByName_halfRemoved).
  - vm_compute. reflexivity.
  - vm_compute. reflexivity.
Defined.

Lemma Events_sorted_all (a : AutoScale.t) (events : list Event.t) :
  let l := merge_sort wizard.newerFirst
                      (filter (wizard.eventMatches a) events) in
  StronglySorted wizard.newerFirst l /\
  (forall e, e ∈ l <-> e ∈ events /\ wizard.eventMatches a e).
Proof.
  intros l. split.
  - apply StronglySorted_merge_sort; apply _.
  - intros e. subst l. rewrite merge_sort_Permutation.
    rewrite list_elem_of_filter. tauto.
Qed.


(** X24. The limit of Events drops the oldest events only: an event of
    the collection that matches the query and is not in the answer
    started no later than every event of the answer, and the answer then
    has 200 events. *)
Theorem Events_drops_oldest
        (a : AutoScale.t) (st : Storage) (events r : list Event.t)
        (e : Event.t) :
  wizard.Events a st events = inl r ->
  e ∈ events -> wizard.eventMatches a e -> e ∉ r ->
  length r = 200%nat /\
  forall x, x ∈ r -> Event.StartTime e <= Event.StartTime x.
Proof.
  unfold wizard.Events. destruct (ConnErr st); [discriminate|].
  intros [= <-] He Hm Hnot.
  destruct (Events_sorted_all a events) as [Hs Hin].
  set (l := merge_sort wizard.newerFirst
                       (filter (wizard.eventMatches a) events)) in *.
  assert (Hl : e ∈ l) by (apply Hin; auto).
  rewrite <- (take_drop 200 l) in Hl, Hs.
  apply elem_of_app in Hl as [Hl|Hl]; [contradiction|].
  split.
  - rewrite length_take. destruct (decide (200 < length l)%nat); [lia|].
    rewrite drop_ge in Hl by lia. apply elem_of_nil in Hl. contradiction.
  - intros x Hx.
    exact (StronglySorted_app_1_elem_of _ _ _ _ _ Hs Hx Hl).
Qed.

Lemma Events_drops_oldest_witness :
  exists r,
    wizard.Events sample.api sample.emptyStorage fixture.manyEvents = inl r /\
    length r = 200%nat.
Proof.
  eexists. split; [reflexivity|].
  eapply (Events_drops_oldest sample.api sample.emptyStorage
            fixture.manyEvents _ (fixture.startedAt 0)).
  - reflexivity.
  - change fixture.manyEvents
      with (fixture.startedAt 0 :: map fixture.startedAt (seq 1 200)).
    apply list_elem_of_here.
  - split; [reflexivity|]. apply Exists_cons_hd. left. reflexivity.
  - intros H.
    assert (F : Forall (fun x => 1 <= Event.StartTime x)
                  (take 200
                     (merge_sort wizard.newerFirst
                        (filter (wizard.eventMatches sample.api)
                                fixture.manyEvents)))).
    { apply (bool_decide_unpack _). vm_compute. reflexivity. }
    rewrite Forall_forall in F. specialize (F _ H).
    vm_compute in F. apply F. reflexivity.
Defined.

(** The wizard's replacer finds nothing to replace where the text does not
    begin with an opening brace. *)
Lemma substitution_lookup_other (a : AutoScale.t) (action : ScaleAction.t)
      (c : ascii) (s : string) :
  Ascii.eqb "{" c = false ->
  strings.lookup (design.substitution a action) (String c s) = None.
Proof.
  intros H. unfold design.substitution. cbn [strings.lookup strings.HasPrefix].
  rewrite H. reflexivity.
Qed.

Lemma Replace_lacks_brace (a : AutoScale.t) (action : ScaleAction.t)
      (s : string) :
  lacks "{" s = true ->
  strings.Replace (design.substitution a action) s = s.
Proof.
  unfold strings.Replace. induction s as [|c s IH]; intros H; [reflexivity|].
  cbn [lacks] in H. apply andb_true_iff in H as [Hc Hs].
  apply negb_true_iff in Hc.
  cbn [String.length]. rewrite replaceLoop_step.
  rewrite (substitution_lookup_other a action c s Hc).
  rewrite (IH Hs). reflexivity.
Qed.

(** X25. A template registered for the metric that holds no opening brace
    is taken as it is: the scale-up alarm's expression is that template,
    character for character, whatever the configured values are. *)
Theorem custom_template_verbatim
        (st : Storage) (a : AutoScale.t) (ds : DataSource.t) :
  wizard.datasourceGet (ScaleAction.Metric (AutoScale.ScaleUp a)) st
  = Some ds ->
  DataSource.ExpressionTemplate ds <> "" ->
  lacks "{" (DataSource.ExpressionTemplate ds) = true ->
  Alarm.Expression (wizard.scaleAlarm st a "scale_up")
  = DataSource.ExpressionTemplate ds.
Proof.
  intros Hds Hne Hl. rewrite scaleAlarm_scale_up.
  cbn [Alarm.Expression map strings.Join].
  unfold wizard.expPart. rewrite Hds.
  apply String.eqb_neq in Hne. rewrite Hne.
  apply Replace_lacks_brace, Hl.
Qed.

Lemma custom_template_verbatim_witness :
  Alarm.Expression (wizard.scaleAlarm fixture.withTemplate sample.api
                                      "scale_up")
  = "data.cpu > 80".
Proof.
  apply (custom_template_verbatim fixture.withTemplate sample.api
           (DataSource.mk "cpu" "data.cpu > 80")).
  - reflexivity.
  - discriminate.
  - reflexivity.
Defined.

(** X26. For a kind other than scale_up and scale_down, newScaleAction
    still builds an alarm and hands it to alarm.NewAlarm: it is named
    after the kind, has no datasource, the empty expression, a zero wait,
    an empty step and the aggregator "max". *)
Theorem scaleAlarm_other_kind
        (st : Storage) (a : AutoScale.t) (kind : string) :
  kind <> "scale_up" -> kind <> "scale_down" ->
  wizard.scaleAlarm st a kind
  = Alarm.mk (kind ++ "_" ++ design.suffix a) "" true 0 (kind :: nil)
             (AutoScale.Name a) nil
             {[ "step" := ""; "process" := design.processName a;
                "aggregator" := "max" ]} /\
  forall valid,
    wizard.newScaleAction valid a kind st
    = wizard.NewAlarm valid (wizard.scaleAlarm st a kind) st.
Proof.
  intros Hu Hd. split; [|reflexivity].
  unfold wizard.scaleAlarm, design.suffix, design.processName.
  apply String.eqb_neq in Hu, Hd. rewrite Hu, Hd.
  destruct (AutoScale.Process a =? "")%string;
    cbn; rewrite insert_empty; reflexivity.
Qed.

Lemma scaleAlarm_other_kind_witness :
  Alarm.Expression (wizard.scaleAlarm sample.emptyStorage sample.api "scale")
  = "".
Proof.
  destruct (scaleAlarm_other_kind sample.emptyStorage sample.api "scale")
    as [-> _].
  - discriminate.
  - discriminate.
  - reflexivity.
Defined.

Lemma wrap64_range (z : Z) : minDuration <= wrap64 z <= maxDuration.
Proof.
  unfold wrap64, minDuration, maxDuration.
  pose proof (Z.mod_pos_bound (z + 2 ^ 63) (2 ^ 64)). lia.
Qed.

(** X27. The wait of a generated alarm is always a Duration, but not
    always the configured one: a configured wait of more than 9223372036
    (and at most 18446744073) seconds does not fit and is stored, by
    wrap-around, as a negative Duration. *)
Theorem scaleAlarm_wait_overflow (st : Storage) (a : AutoScale.t) :
  let w := ScaleAction.Wait (AutoScale.ScaleUp a) in
  let stored := Alarm.Wait (wizard.scaleAlarm st a "scale_up") in
  minDuration <= stored <= maxDuration /\
  (9223372036 < w <= 18446744073 ->
   stored = w * 1000000000 - 2 ^ 64 /\ stored < 0).
Proof.
  intros w stored. subst stored. rewrite scaleAlarm_scale_up.
  cbn [Alarm.Wait]. fold w. split; [apply wrap64_range|].
  intros Hw. unfold wrap64, Second.
  assert (E : (w * 1000000000 + 2 ^ 63) mod 2 ^ 64
              = w * 1000000000 + 2 ^ 63 - 2 ^ 64).
  { symmetry. apply Z.mod_unique with (q := 1); lia. }
  rewrite E. lia.
Qed.

Lemma scaleAlarm_wait_overflow_witness :
  Alarm.Wait (wizard.scaleAlarm sample.emptyStorage fixture.longWait
                                "scale_up") < 0.
Proof.
  apply (scaleAlarm_wait_overflow sample.emptyStorage fixture.longWait).
  vm_compute. split; [reflexivity | discriminate].
Defined.


(** The events of "api" among the three sample events, newest first. *)
Example Events_of_api :
  wizard.Events sample.api sample.emptyStorage fixture.events
  = inl (fixture.eventOf
           (wizard.scaleAlarm sample.emptyStorage fixture.api1 "scale_down")
           63000000060000000000
         :: fixture.eventOf
              (wizard.scaleAlarm sample.emptyStorage fixture.api1 "scale_up")
              63000000000000000000
         :: nil).
Proof. vm_compute. reflexivity. Qed.
